(** * Tracing Positional Viewer (app/app.py)

    A shallow embedding of the viewer's page pipeline: the index clamp
    [ensure_index_bounds], the two cached page rasterizers
    [render_pdf_page_from_path] / [render_pdf_page_from_bytes], the
    placeholder image, and the part of [main] that resolves a record's
    page, draws the bounding-box overlay and shows the result.

    Python integers are [Z]; Python floats are IEEE binary64 values,
    written with the standard library's [spec_float] and its correctly
    rounded operations; exceptions are an explicit [result] type. *)

From Stdlib Require Import ZArith List String Ascii Bool Lia.
From Stdlib Require Import Floats.SpecFloat.
Import ListNotations.

Local Open Scope Z_scope.

#[local] Set Warnings "-register-all".

(* ================================================================== *)
(** * The fragment of Python that app.py relies on *)
(* ================================================================== *)

Module Py.

(** Exceptions that can travel through app.py.  [LibraryError] stands for
    whatever an external library (PyMuPDF, Pillow) raises from inside one
    of its calls; all of them are subclasses of [Exception]. *)
Inductive exn : Type :=
| RuntimeError (msg : string)
| NotImplementedError (msg : string)
| ValueError
| TypeError
| OverflowError
| IndexError
| AttributeError
| MemoryError
| LibraryError (msg : string).

Inductive result (A : Type) : Type :=
| Ok (a : A)
| Raise (e : exn).
Arguments Ok {A} a.
Arguments Raise {A} e.

Definition bind {A B} (r : result A) (k : A -> result B) : result B :=
  match r with
  | Ok a => k a
  | Raise e => Raise e
  end.

Definition is_ok {A} (r : result A) : bool :=
  match r with Ok _ => true | Raise _ => false end.

(** ** binary64 *)

Definition float := spec_float.
Definition prec : Z := 53.
Definition emax : Z := 1024.

Definition fmul (x y : float) : float := SFmul prec emax x y.

(** [float(z)] for an int: correctly rounded, [OverflowError] when the
    rounded value does not fit ("int too large to convert to float"). *)
Definition float_of_int (z : Z) : result float :=
  match binary_normalize prec emax z 0 false with
  | S754_infinity _ => Raise OverflowError
  | f => Ok f
  end.

(** [int(f)] for a float: truncation toward zero; NaN is a [ValueError],
    an infinity an [OverflowError]. *)
Definition int_of_float (f : float) : result Z :=
  match f with
  | S754_nan => Raise ValueError
  | S754_infinity _ => Raise OverflowError
  | S754_zero _ => Ok 0
  | S754_finite s m e => Ok (cond_Zopp s (Z.shiftl (Zpos m) e))
  end.

(** A float literal [m * 2^e] (exact when it fits in 53 bits). *)
Definition dyadic (m e : Z) : float := binary_normalize prec emax m e false.

(** ** Values, as [json.loads] builds them *)

Inductive value : Type :=
| VNone
| VBool (b : bool)
| VInt (z : Z)
| VFloat (f : float)
| VStr (s : string)
| VList (l : list value)
| VDict (d : list (string * value)).

Definition is_none (v : value) : bool :=
  match v with VNone => true | _ => false end.

(** [d.get(key, default)] *)
Fixpoint dict_get_default (d : list (string * value)) (key : string)
         (default : value) : value :=
  match d with
  | [] => default
  | (k, v) :: rest =>
      if String.eqb k key then v else dict_get_default rest key default
  end.

(** [d.get(key)] *)
Definition dict_get (d : list (string * value)) (key : string) : value :=
  dict_get_default d key VNone.

(** ** [int(s)] for a str

    A [string] holds the UTF-8 bytes of the Python str.  [int] first
    brings the text to ASCII: text that is ASCII already is taken as it
    is; in any other text every Unicode blank becomes a space and every
    Unicode decimal digit its ASCII digit.  Which code points are blanks
    and digits is the interpreter's Unicode database, so that step is a
    parameter.  The ASCII text is then read: optional surrounding
    blanks, an optional sign, decimal digits that single underscores may
    separate, and no more than [int_max_str_digits] digits. *)

Record Unicode : Type := {
  (** [_PyUnicode_TransformDecimalAndSpaceToASCII], on text that is not
      ASCII *)
  decimal_and_space_to_ascii : string -> string
}.

Fixpoint is_ascii (s : string) : bool :=
  match s with
  | EmptyString => true
  | String c rest => (N_of_ascii c <? 128)%N && is_ascii rest
  end.

(** [Py_ISSPACE]: tab, line feed, vertical tab, form feed, carriage
    return and space. *)
Definition is_space (c : ascii) : bool :=
  let n := N_of_ascii c in
  (((9 <=? n) && (n <=? 13)) || (n =? 32))%N.

Definition digit_of (c : ascii) : option Z :=
  let n := Z.of_N (N_of_ascii c) in
  if (48 <=? n) && (n <=? 57) then Some (n - 48) else None.

Fixpoint lstrip (s : string) : string :=
  match s with
  | String c rest => if is_space c then lstrip rest else s
  | EmptyString => s
  end.

Fixpoint string_rev_onto (s acc : string) : string :=
  match s with
  | EmptyString => acc
  | String c rest => string_rev_onto rest (String c acc)
  end.

Definition strip (s : string) : string :=
  let r := lstrip (string_rev_onto (lstrip s) EmptyString) in
  string_rev_onto r EmptyString.

(** [digits acc after_digit s]: the value of the digit string [s] read
    onto [acc]; [after_digit] says whether the previous character was a
    digit (an underscore is legal only between two digits). *)
Fixpoint digits (acc : Z) (after_digit : bool) (s : string) : option Z :=
  match s with
  | EmptyString => if after_digit then Some acc else None
  | String c rest =>
      match digit_of c with
      | Some d => digits (10 * acc + d) true rest
      | None =>
          if Ascii.eqb c "_"%char && after_digit
          then match rest with
               | EmptyString => None
               | String c' _ =>
                   match digit_of c' with
                   | Some _ => digits acc false rest
                   | None => None
                   end
               end
          else None
      end
  end.

(** How many digits a text holds, underscores apart. *)
Fixpoint digit_count (s : string) : Z :=
  match s with
  | EmptyString => 0
  | String c rest =>
      match digit_of c with
      | Some _ => 1 + digit_count rest
      | None => digit_count rest
      end
  end.

(** [sys.get_int_max_str_digits()], at its default. *)
Definition int_max_str_digits : Z := 4300.

Definition int_of_str (u : Unicode) (s : string) : result Z :=
  let text := if is_ascii s then s else decimal_and_space_to_ascii u s in
  let body (neg : bool) (t : string) :=
    match digits 0 false t with
    | Some z =>
        if digit_count t <=? int_max_str_digits
        then Ok (if neg then - z else z)
        else Raise ValueError
    | None => Raise ValueError
    end in
  match strip text with
  | String "-"%char t => body true t
  | String "+"%char t => body false t
  | t => body false t
  end.

(** ** The two operators the overlay code applies to a bbox entry *)

Fixpoint str_repeat (s : string) (n : nat) : string :=
  match n with
  | O => EmptyString
  | S k => (s ++ str_repeat s k)%string
  end.

Fixpoint list_repeat {A} (l : list A) (n : nat) : list A :=
  match n with
  | O => []
  | S k => l ++ list_repeat l k
  end.

(** [v * n] with [n] an int. *)
Definition mul_int (v : value) (n : Z) : result value :=
  match v with
  | VNone => Raise TypeError
  | VBool b => Ok (VInt ((if b then 1 else 0) * n))
  | VInt z => Ok (VInt (z * n))
  | VFloat f => bind (float_of_int n) (fun g => Ok (VFloat (fmul f g)))
  | VStr s => Ok (VStr (str_repeat s (Z.to_nat n)))
  | VList l => Ok (VList (list_repeat l (Z.to_nat n)))
  | VDict _ => Raise TypeError
  end.

(** [int(v)] *)
Definition int (u : Unicode) (v : value) : result Z :=
  match v with
  | VNone => Raise TypeError
  | VBool b => Ok (if b then 1 else 0)
  | VInt z => Ok z
  | VFloat f => int_of_float f
  | VStr s => int_of_str u s
  | VList _ => Raise TypeError
  | VDict _ => Raise TypeError
  end.

End Py.

Import Py.

Notation "x <- c ;; k" := (Py.bind c (fun x => k))
  (at level 61, c at next level, right associativity).

(* ================================================================== *)
(** * Pillow images, kept symbolic

    An image is its mode, its size, the pixels it started from and the
    drawing calls made on it since, in order.  Drawing calls are
    recorded, not rasterised: what the primitive paints for a given
    rectangle (clipping) is Pillow's business.  Which rectangles the
    primitive refuses, and which images the machine can hold, is not
    the same for every Pillow and every machine; both are parameters. *)
(* ================================================================== *)

Module PIL.

Definition color : Type := Z * Z * Z.

Record Font : Type := {
  font_name : string;
  font_size : Z;
  (** [draw.textbbox((0, 0), text, font=font)] *)
  font_textbbox : string -> Z * Z * Z * Z
}.

Inductive draw_op : Type :=
| Text (xy : Z * Z) (text : string) (fill : color) (font : Font)
| Rectangle (xy : Z * Z * Z * Z) (outline : color) (width : Z).

Inductive pixels : Type :=
| Solid (c : color)
| Samples (data : list Z).

Record Image : Type := {
  mode : string;
  size : Z * Z;
  base : pixels;
  ops : list draw_op
}.

Record Library : Type := {
  (** whether Pillow gets the storage for an image of this size; it
      refuses a width above [2^29 - 2] and what the machine cannot hold *)
  can_allocate : Z * Z -> bool;
  (** what [draw.rectangle] raises for these corners, if anything: from
      Pillow 9.5 on a ValueError when [x1 < x0] or [y1 < y0], and an
      error for a corner that does not fit a C integer *)
  rectangle_error : Z * Z * Z * Z -> option exn
}.

Definition check_size (sz : Z * Z) : bool :=
  (0 <=? fst sz) && (0 <=? snd sz).

(** Both sides fit a C [int]. *)
Definition fits_int (sz : Z * Z) : bool :=
  (fst sz <? 2 ^ 31) && (snd sz <? 2 ^ 31).

(** [Image.new(mode, size, color=c)]: a negative side is a ValueError,
    a side from [2^31] on an OverflowError, an image that Pillow cannot
    allocate a MemoryError. *)
Definition new (lib : Library) (m : string) (sz : Z * Z) (c : color)
  : result Image :=
  if negb (check_size sz) then Raise ValueError
  else if negb (fits_int sz) then Raise OverflowError
  else if negb (can_allocate lib sz) then Raise MemoryError
  else Ok {| mode := m; size := sz; base := Solid c; ops := [] |}.

(** [Image.frombytes(mode, size, data)] for a three-band mode: a negative
    side or too little data is a ValueError. *)
Definition frombytes (m : string) (sz : Z * Z) (data : list Z)
  : result Image :=
  if check_size sz && (3 * fst sz * snd sz <=? Z.of_nat (List.length data))
  then Ok {| mode := m; size := sz; base := Samples data; ops := [] |}
  else Raise ValueError.

Definition draw (img : Image) (op : draw_op) : Image :=
  {| mode := mode img; size := size img; base := base img;
     ops := ops img ++ [op] |}.

(** [ImageDraw.Draw(img).rectangle(xy, outline=outline, width=width)] *)
Definition rectangle (lib : Library) (img : Image) (xy : Z * Z * Z * Z)
           (outline : color) (width : Z) : result Image :=
  match rectangle_error lib xy with
  | Some e => Raise e
  | None => Ok (draw img (Rectangle xy outline width))
  end.

End PIL.

(* ================================================================== *)
(** * PyMuPDF, as far as the rasterizers use it *)
(* ================================================================== *)

Module Fitz.

Record Pixmap : Type := {
  width : Z;
  height : Z;
  samples : list Z
}.

(** A page is what [page.get_pixmap(matrix=fitz.Matrix(a, d), alpha=False)]
    gives for each scale pair. *)
Record Page : Type := {
  get_pixmap : float -> float -> result Pixmap
}.

Record Document : Type := {
  pages : list Page
}.

Definition page_count (doc : Document) : Z := Z.of_nat (List.length (pages doc)).

(** [doc.load_page(i)].  PyMuPDF also takes negative ids, counting from
    the end; the rasterizers only pass ids they have clamped to be
    non-negative, so that case is left as the error it is past the end. *)
Definition load_page (doc : Document) (i : Z) : result Page :=
  if (0 <=? i) && (i <? page_count doc)
  then match nth_error (pages doc) (Z.to_nat i) with
       | Some p => Ok p
       | None => Raise ValueError
       end
  else Raise ValueError.

(** The module itself: [fitz.open(path)] and
    [fitz.open(stream=raw, filetype="pdf")]. *)
Record Library : Type := {
  open_path : string -> result Document;
  open_stream : list Byte.byte -> result Document
}.

End Fitz.

(* ================================================================== *)
(** * What the process finds around it *)
(* ================================================================== *)

Record Env : Type := {
  (** the interpreter's Unicode database *)
  unicode : Py.Unicode;
  (** the installed Pillow, on this machine *)
  pillow : PIL.Library;
  (** [fitz], or [None] when the import failed *)
  fitz : option Fitz.Library;
  (** [ImageFont.truetype(name, size)]; [None] is its OSError *)
  truetype : string -> Z -> option PIL.Font;
  load_default : PIL.Font;
  (** [Path(__file__).resolve().parents[1]] *)
  app_root : string;
  path_exists : string -> bool;
  (** [json.loads(raw.decode("utf-8"))] *)
  json_loads : list Byte.byte -> result value;
  (** [json.load] of the file at a path *)
  json_load_path : string -> result value;
  (** [hash(raw)] *)
  hash_bytes : list Byte.byte -> Z;
  (** [tempfile.mkdtemp(prefix=...)] *)
  mkdtemp : string -> string
}.

Definition DATA_PATH (env : Env) : string :=
  (app_root env ++ "/tracing_positional.json")%string.

Definition PDF_PATH (env : Env) : string :=
  (app_root env ++
   "/documents/tracing_positional_bias_in_finance_decision_making.pdf")%string.

(* ================================================================== *)
(** * Streamlit: session state, the data caches, what is put on screen *)
(* ================================================================== *)

Inductive message : Type :=
| Plain (s : string)
(** [f"PDF not found at {PDF_PATH}"] *)
| PdfNotFound (path : string)
(** [f"Failed to render PDF page {page_no}: {exc}"] *)
| RenderFailed (page_no : Z) (exc : exn)
(** [str(exc)] *)
| StrOfExn (exc : exn).

(** The argument of [st.markdown]: a record's [text] entry as it is, or
    [str(item)] of an item that is not a dict. *)
Inductive markup : Type :=
| TextOf (v : value)
| StrOf (v : value).

Inductive ui_event : Type :=
| Info (m : message)
| Error (m : message)
| Warning (m : message)
| SidebarWarning (m : message)
| Markdown (body : markup)
| ShowImage (img : PIL.Image).

Record Session : Type := {
  json_hash : option Z;
  pdf_hash : option Z;
  (** [None]: the key is not in [st.session_state] *)
  pos_index : option Z
}.

Definition render_path_key : Type := string * Z * float.
Definition render_bytes_key : Type := list Byte.byte * Z * float.

Record World : Type := {
  session : Session;
  (** one table per [@st.cache_data] function *)
  load_path_cache : list (string * value);
  load_bytes_cache : list (list Byte.byte * value);
  render_path_cache : list (render_path_key * PIL.Image);
  render_bytes_cache : list (render_bytes_key * PIL.Image);
  (** how many times a rasterizer body has run *)
  raster_calls : nat;
  (** what this run has put on the page so far, oldest first *)
  screen : list ui_event
}.

Definition M (A : Type) : Type := World -> result A * World.

Definition ret {A} (a : A) : M A := fun w => (Ok a, w).
Definition raise {A} (e : exn) : M A := fun w => (Raise e, w).
Definition lift {A} (r : result A) : M A := fun w => (r, w).

Definition mbind {A B} (m : M A) (k : A -> M B) : M B :=
  fun w =>
    match m w with
    | (Ok a, w') => k a w'
    | (Raise e, w') => (Raise e, w')
    end.

Notation "x <~ c ;; k" := (mbind c (fun x => k))
  (at level 61, c at next level, right associativity).
Notation "c ;;; k" := (mbind c (fun _ => k))
  (at level 61, right associativity).

(** [try: body  except <handles> as exc: handler(exc)] *)
Definition try_except {A} (body : M A) (handles : exn -> bool)
           (handler : exn -> M A) : M A :=
  fun w =>
    match body w with
    | (Raise e, w') => if handles e then handler e w' else (Raise e, w')
    | ok => ok
    end.

Definition emit (ev : ui_event) : M unit :=
  fun w =>
    (Ok tt,
     {| session := session w;
        load_path_cache := load_path_cache w;
        load_bytes_cache := load_bytes_cache w;
        render_path_cache := render_path_cache w;
        render_bytes_cache := render_bytes_cache w;
        raster_calls := raster_calls w;
        screen := screen w ++ [ev] |}).

Definition tick : M unit :=
  fun w =>
    (Ok tt,
     {| session := session w;
        load_path_cache := load_path_cache w;
        load_bytes_cache := load_bytes_cache w;
        render_path_cache := render_path_cache w;
        render_bytes_cache := render_bytes_cache w;
        raster_calls := S (raster_calls w);
        screen := screen w |}).

Definition get_session : M Session := fun w => (Ok (session w), w).

Definition put_session (s : Session) : M unit :=
  fun w =>
    (Ok tt,
     {| session := s;
        load_path_cache := load_path_cache w;
        load_bytes_cache := load_bytes_cache w;
        render_path_cache := render_path_cache w;
        render_bytes_cache := render_bytes_cache w;
        raster_calls := raster_calls w;
        screen := screen w |}).

Definition set_pos_index (i : Z) : M unit :=
  s <~ get_session ;;
  put_session {| json_hash := json_hash s; pdf_hash := pdf_hash s;
                 pos_index := Some i |}.

Definition set_json_hash (h : Z) : M unit :=
  s <~ get_session ;;
  put_session {| json_hash := Some h; pdf_hash := pdf_hash s;
                 pos_index := pos_index s |}.

(** ** [@st.cache_data]

    A table from the call's arguments to the value returned.  A call
    whose arguments are in the table returns the stored value and the
    function body does not run; otherwise the body runs, and its value
    is stored only if it returned one: an exception leaves the table as
    it was and goes on to the caller. *)

Record slot (K V : Type) : Type := {
  key_eqb : K -> K -> bool;
  table : World -> list (K * V);
  set_table : list (K * V) -> World -> World
}.
Arguments key_eqb {K V} s.
Arguments table {K V} s.
Arguments set_table {K V} s.

Fixpoint lookup {K V} (eqb : K -> K -> bool) (k : K) (t : list (K * V))
  : option V :=
  match t with
  | [] => None
  | (k', v) :: rest => if eqb k k' then Some v else lookup eqb k rest
  end.

Definition cache_data {K V} (sl : slot K V) (body : K -> M V) (k : K) : M V :=
  fun w =>
    match lookup (key_eqb sl) k (table sl w) with
    | Some v => (Ok v, w)
    | None =>
        match body k w with
        | (Ok v, w') => (Ok v, set_table sl ((k, v) :: table sl w') w')
        | (Raise e, w') => (Raise e, w')
        end
    end.

(** Argument equality, as the cache sees it: same bytes, same int, the
    same float bit for bit. *)
Definition float_eqb (x y : float) : bool :=
  match x, y with
  | S754_zero a, S754_zero b => Bool.eqb a b
  | S754_infinity a, S754_infinity b => Bool.eqb a b
  | S754_nan, S754_nan => true
  | S754_finite a m e, S754_finite b n f =>
      Bool.eqb a b && Pos.eqb m n && Z.eqb e f
  | _, _ => false
  end.

Fixpoint bytes_eqb (a b : list Byte.byte) : bool :=
  match a, b with
  | [], [] => true
  | x :: a', y :: b' => Byte.eqb x y && bytes_eqb a' b'
  | _, _ => false
  end.

Definition render_path_key_eqb (a b : render_path_key) : bool :=
  let '(p, i, z) := a in
  let '(q, j, y) := b in
  String.eqb p q && Z.eqb i j && float_eqb z y.

Definition render_bytes_key_eqb (a b : render_bytes_key) : bool :=
  let '(p, i, z) := a in
  let '(q, j, y) := b in
  bytes_eqb p q && Z.eqb i j && float_eqb z y.

Definition load_path_slot : slot string value := {|
  key_eqb := String.eqb;
  table := load_path_cache;
  set_table := fun t w =>
    {| session := session w;
       load_path_cache := t;
       load_bytes_cache := load_bytes_cache w;
       render_path_cache := render_path_cache w;
       render_bytes_cache := render_bytes_cache w;
       raster_calls := raster_calls w;
       screen := screen w |}
|}.

Definition load_bytes_slot : slot (list Byte.byte) value := {|
  key_eqb := bytes_eqb;
  table := load_bytes_cache;
  set_table := fun t w =>
    {| session := session w;
       load_path_cache := load_path_cache w;
       load_bytes_cache := t;
       render_path_cache := render_path_cache w;
       render_bytes_cache := render_bytes_cache w;
       raster_calls := raster_calls w;
       screen := screen w |}
|}.

Definition render_path_slot : slot render_path_key PIL.Image := {|
  key_eqb := render_path_key_eqb;
  table := render_path_cache;
  set_table := fun t w =>
    {| session := session w;
       load_path_cache := load_path_cache w;
       load_bytes_cache := load_bytes_cache w;
       render_path_cache := t;
       render_bytes_cache := render_bytes_cache w;
       raster_calls := raster_calls w;
       screen := screen w |}
|}.

Definition render_bytes_slot : slot render_bytes_key PIL.Image := {|
  key_eqb := render_bytes_key_eqb;
  table := render_bytes_cache;
  set_table := fun t w =>
    {| session := session w;
       load_path_cache := load_path_cache w;
       load_bytes_cache := load_bytes_cache w;
       render_path_cache := render_path_cache w;
       render_bytes_cache := t;
       raster_calls := raster_calls w;
       screen := screen w |}
|}.


(* ================================================================== *)
(** * app.py *)
(* ================================================================== *)

Definition load_tracing_data_from_path (env : Env) : string -> M value :=
  cache_data load_path_slot (fun path => lift (json_load_path env path)).

Definition load_tracing_data_from_bytes (env : Env)
  : list Byte.byte -> M value :=
  cache_data load_bytes_slot (fun raw => lift (json_loads env raw)).

Definition ensure_index_bounds (index max_index : Z) : Z :=
  if index <? 0 then 0
  else if index >? max_index then max_index
  else index.

Definition generate_json_from_pdf (pdf_bytes : list Byte.byte)
           (api_key : string) (output_dir : string) : result string :=
  Raise (NotImplementedError "PDF-to-JSON generation is not implemented yet.").

Definition default_width : Z := 900.
Definition default_height : Z := 600.

Definition build_placeholder_image (env : Env) (width height : Z)
  : result PIL.Image :=
  img <- PIL.new (pillow env) "RGB" (width, height) (245, 245, 245) ;;
  let text := "Image Placeholder"%string in
  let font :=
    match truetype env "DejaVuSans.ttf" 36 with
    | Some f => f
    | None => load_default env
    end in
  let '(left_, top, right_, bottom) := PIL.font_textbbox font text in
  let text_width := right_ - left_ in
  let text_height := bottom - top in
  let x := (width - text_width) / 2 in
  let y := (height - text_height) / 2 in
  Ok (PIL.draw img (PIL.Text (x, y) text (80, 80, 80) font)).

(** [zoom: float = 2.0] *)
Definition default_zoom : float := dyadic 2 0.

Definition fitz_missing : exn :=
  RuntimeError "PyMuPDF is not available. Install with: pip install pymupdf".

(** The [with fitz.open(...) as doc:] block; its text is the same in
    both rasterizers. *)
Definition render_page (doc : Fitz.Document) (page_index : Z) (zoom : float)
  : result PIL.Image :=
  let page_index := Z.max 0 (Z.min page_index (Fitz.page_count doc - 1)) in
  page <- Fitz.load_page doc page_index ;;
  pix <- Fitz.get_pixmap page zoom zoom ;;
  PIL.frombytes "RGB" (Fitz.width pix, Fitz.height pix) (Fitz.samples pix).

(** The undecorated functions.  [tick] marks that the body runs. *)
Definition rasterize_path (env : Env) (k : render_path_key)
  : M PIL.Image :=
  let '(path, page_index, zoom) := k in
  tick ;;;
  match fitz env with
  | None => raise fitz_missing
  | Some lib =>
      lift (doc <- Fitz.open_path lib path ;; render_page doc page_index zoom)
  end.

Definition rasterize_bytes (env : Env) (k : render_bytes_key)
  : M PIL.Image :=
  let '(raw, page_index, zoom) := k in
  tick ;;;
  match fitz env with
  | None => raise fitz_missing
  | Some lib =>
      lift (doc <- Fitz.open_stream lib raw ;; render_page doc page_index zoom)
  end.

Definition render_pdf_page_from_path (env : Env) (path : string)
           (page_index : Z) (zoom : float) : M PIL.Image :=
  cache_data render_path_slot (rasterize_path env) (path, page_index, zoom).

Definition render_pdf_page_from_bytes (env : Env) (raw : list Byte.byte)
           (page_index : Z) (zoom : float) : M PIL.Image :=
  cache_data render_bytes_slot (rasterize_bytes env) (raw, page_index, zoom).

(** ** [main], from the record on *)

(** [data[i]] *)
Definition list_index (l : list value) (i : Z) : result value :=
  let n := Z.of_nat (List.length l) in
  let j := if i <? 0 then i + n else i in
  if (0 <=? j) && (j <? n)
  then match nth_error l (Z.to_nat j) with
       | Some v => Ok v
       | None => Raise IndexError
       end
  else Raise IndexError.

(** Lines 150-153. *)
Definition markdown_text (current_item : value) : markup :=
  match current_item with
  | VDict d => TextOf (dict_get_default d "text" (VStr ""))
  | _ => StrOf current_item
  end.

(** Lines 158-163. *)
Definition resolve_page_no (env : Env) (current_item : value) : result Z :=
  match current_item with
  | VDict d =>
      if negb (is_none (dict_get d "page_no"))
      then int (unicode env) (dict_get d "page_no")
      else if negb (is_none (dict_get d "page"))
      then int (unicode env) (dict_get d "page")
      else Ok 0
  | _ => Ok 0
  end.

Definition overlay_outline : PIL.color := (220, 20, 60).
Definition overlay_stroke : Z := 4.

(** Lines 183-186 for one coordinate: [int(c * side)]. *)
Definition to_pixel (env : Env) (c : value) (side : Z) : result Z :=
  p <- mul_int c side ;; int (unicode env) p.

(** Lines 181-186: the pixel rectangle of a four-entry bbox. *)
Definition pixel_rect (env : Env) (sz : Z * Z) (x0 y0 x1 y1 : value)
  : result (Z * Z * Z * Z) :=
  let '(width, height) := sz in
  px0 <- to_pixel env x0 width ;;
  px1 <- to_pixel env x1 width ;;
  py0 <- to_pixel env y0 height ;;
  py1 <- to_pixel env y1 height ;;
  Ok (px0, py0, px1, py1).

(** Lines 178-188.  [json.loads] builds lists, never tuples, so the
    [isinstance(bbox, (list, tuple))] test is the test for a list. *)
Definition draw_overlay (env : Env) (current_item : value) (img : PIL.Image)
  : result PIL.Image :=
  match current_item with
  | VDict d =>
      match dict_get d "bbox" with
      | VList [x0; y0; x1; y1] =>
          r <- pixel_rect env (PIL.size img) x0 y0 x1 y1 ;;
          PIL.rectangle (pillow env) img r overlay_outline overlay_stroke
      | _ => Ok img
      end
  | _ => Ok img
  end.

(** [st.image(build_placeholder_image(), use_container_width=True)] *)
Definition show_placeholder (env : Env) : M unit :=
  img <~ lift (build_placeholder_image env default_width default_height) ;;
  emit (ShowImage img).

Definition show_page (env : Env) (current_item : value) (img : PIL.Image)
  : M unit :=
  img' <~ lift (draw_overlay env current_item img) ;;
  emit (ShowImage img').

(** Lines 157-192. *)
Definition right_col (env : Env) (pdf_upload : option (list Byte.byte))
           (current_item : value) : M unit :=
  page_no <~ lift (resolve_page_no env current_item) ;;
  match fitz env with
  | None =>
      emit (Warning (Plain
        "PyMuPDF is required to render PDF pages. Install with: pip install pymupdf")) ;;;
      show_placeholder env
  | Some _ =>
      try_except
        (match pdf_upload with
         | Some raw =>
             img <~ render_pdf_page_from_bytes env raw page_no default_zoom ;;
             show_page env current_item img
         | None =>
             if negb (path_exists env (PDF_PATH env))
             then emit (Warning (PdfNotFound (PDF_PATH env))) ;;;
                  show_placeholder env
             else
               img <~ render_pdf_page_from_path env (PDF_PATH env) page_no
                        default_zoom ;;
               show_page env current_item img
         end)
        (fun _ => true)
        (fun exc =>
           emit (Warning (RenderFailed page_no exc)) ;;;
           show_placeholder env)
  end.

(** ** [main] *)

(** What the widgets return on this run. *)
Record Inputs : Type := {
  api_key : string;
  json_mode : string;
  pdf_upload : option (list Byte.byte);
  (** the "Upload JSON" uploader, shown only in that mode *)
  json_uploader : option (list Byte.byte);
  prev_clicked : bool;
  next_clicked : bool
}.

Definition read_pos_index : M Z :=
  s <~ get_session ;;
  match pos_index s with
  | Some i => ret i
  | None => raise AttributeError
  end.

Definition is_not_implemented (e : exn) : bool :=
  match e with NotImplementedError _ => true | _ => false end.

(** Lines 96-111: [data] after the "Generate from PDF" attempt; [VNone]
    is Python's [None]. *)
Definition generate_data (env : Env) (inp : Inputs) : M value :=
  match String.eqb (json_mode inp) "Generate from PDF", pdf_upload inp with
  | true, Some pdf =>
      if String.eqb (api_key inp) ""
      then emit (SidebarWarning (Plain
             "API key required to generate JSON from PDF.")) ;;;
           ret VNone
      else
        try_except
          (let temp_dir := mkdtemp env "tracing_json_" in
           json_path <~ lift (generate_json_from_pdf pdf (api_key inp) temp_dir) ;;
           data <~ load_tracing_data_from_path env json_path ;;
           set_pos_index 0 ;;;
           ret data)
          is_not_implemented
          (fun exc => emit (SidebarWarning (StrOfExn exc)) ;;; ret VNone)
  | _, _ => ret VNone
  end.

(** Lines 128-192, once [data] is a non-empty list. *)
Definition browse (env : Env) (inp : Inputs) (data : list value) : M unit :=
  s <~ get_session ;;
  match pos_index s with None => set_pos_index 0 | Some _ => ret tt end ;;;
  let max_index := Z.of_nat (List.length data) - 1 in
  i <~ read_pos_index ;;
  let current_index := ensure_index_bounds i max_index in
  set_pos_index current_index ;;;
  (if prev_clicked inp
   then set_pos_index (ensure_index_bounds (current_index - 1) max_index)
   else ret tt) ;;;
  (if next_clicked inp
   then set_pos_index (ensure_index_bounds (current_index + 1) max_index)
   else ret tt) ;;;
  i <~ read_pos_index ;;
  current_item <~ lift (list_index data i) ;;
  emit (Markdown (markdown_text current_item)) ;;;
  right_col env (pdf_upload inp) current_item.

(** [main].  The widgets' values are [inp]; the buttons' return values
    are taken as given, whatever their [disabled] flags.  The keys
    [json_hash] and [pdf_hash] that lines 97-100 default to [None] are
    [None] in a [Session] from the start.  In [loaded], [None] is the
    [return] of line 123. *)
Definition main (env : Env) (inp : Inputs) : M unit :=
  let json_upload :=
    if String.eqb (json_mode inp) "Upload JSON"
    then json_uploader inp else None in
  data <~ generate_data env inp ;;
  loaded <~
    (if is_none data
     then
       match json_upload with
       | Some json_bytes =>
           let h := hash_bytes env json_bytes in
           s <~ get_session ;;
           (match json_hash s with
            | Some h' =>
                if Z.eqb h' h then ret tt
                else set_json_hash h ;;; set_pos_index 0
            | None => set_json_hash h ;;; set_pos_index 0
            end) ;;;
           data <~ load_tracing_data_from_bytes env json_bytes ;;
           ret (Some data)
       | None =>
           emit (Info (Plain
             "Upload a JSON file (or choose Generate from PDF and upload a PDF) to begin.")) ;;;
           ret None
       end
     else ret (Some data)) ;;
  match loaded with
  | None => ret tt
  | Some (VList (item :: rest)) => browse env inp (item :: rest)
  | Some _ =>
      emit (Error (Plain "No tracing data found or unexpected format."))
  end.

(* ================================================================== *)
(** * The overlay rectangle as the specification words it *)
(* ================================================================== *)

(** [round(f)]: the nearest integer, a tie going to the even one. *)
Definition round_of_float (f : float) : result Z :=
  match f with
  | S754_nan => Raise ValueError
  | S754_infinity _ => Raise OverflowError
  | S754_zero _ => Ok 0
  | S754_finite s m e =>
      if 0 <=? e then Ok (cond_Zopp s (Z.shiftl (Zpos m) e))
      else
        let k := - e in
        let q := Z.shiftr (Zpos m) k in
        let twice_rest := 2 * (Zpos m - Z.shiftl q k) in
        let unit := Z.shiftl 1 k in
        let up :=
          match twice_rest ?= unit with
          | Lt => false
          | Gt => true
          | Eq => Z.odd q
          end in
        Ok (cond_Zopp s (if up then q + 1 else q))
  end.

(** [round(c * side)] *)
Definition to_pixel_rounded (env : Env) (c : value) (side : Z) : result Z :=
  p <- mul_int c side ;;
  match p with
  | VFloat f => round_of_float f
  | v => int (unicode env) v
  end.

(** The rectangle [(round(x0*W), round(y0*H), round(x1*W), round(y1*H))]. *)
Definition rounded_pixel_rect (env : Env) (sz : Z * Z) (x0 y0 x1 y1 : value)
  : result (Z * Z * Z * Z) :=
  let '(width, height) := sz in
  px0 <- to_pixel_rounded env x0 width ;;
  px1 <- to_pixel_rounded env x1 width ;;
  py0 <- to_pixel_rounded env y0 height ;;
  py1 <- to_pixel_rounded env y1 height ;;
  Ok (px0, py0, px1, py1).


(** [bbox] as the overlay code wants it: a list of exactly four entries. *)
Definition four_entries (v : value) : bool :=
  match v with
  | VList [_; _; _; _] => true
  | _ => false
  end.

(** The page index a rasterizer loads: [max(0, min(page_index, n - 1))]. *)
Definition clamped_page (doc : Fitz.Document) (page_index : Z) : Z :=
  Z.max 0 (Z.min page_index (Fitz.page_count doc - 1)).

(** The rest of a rasterizer's body once the page is in hand. *)
Definition page_image (page : Fitz.Page) (zoom : float) : result PIL.Image :=
  pix <- Fitz.get_pixmap page zoom zoom ;;
  PIL.frombytes "RGB" (Fitz.width pix, Fitz.height pix) (Fitz.samples pix).

(* ================================================================== *)
(** * Sample data for the worked instances *)
(* ================================================================== *)

Module Sample.

Definition quarter : value := VFloat (dyadic 1 (-2)).
Definition three_quarters : value := VFloat (dyadic 3 (-2)).
Definition zero : value := VFloat (dyadic 0 0).
Definition one : value := VFloat (dyadic 1 0).

Definition font : PIL.Font := {|
  PIL.font_name := "default";
  PIL.font_size := 10;
  PIL.font_textbbox := fun t => (0, 2, 6 * Z.of_nat (String.length t), 11)
|}.

(** A page that rasterizes to a white pixel whatever the scale. *)
Definition dot : Fitz.Page := {|
  Fitz.get_pixmap := fun _ _ =>
    Ok {| Fitz.width := 1; Fitz.height := 1; Fitz.samples := [255; 255; 255] |}
|}.

(** A page that the backend fails to rasterize. *)
Definition torn : Fitz.Page := {|
  Fitz.get_pixmap := fun _ _ => Raise (LibraryError "cannot render page")
|}.

(** A side of [w] points at scale [a], truncated. *)
Definition scaled (a : float) (w : Z) : result Z :=
  g <- float_of_int w ;; int_of_float (fmul a g).

(** A page of [w] by [h] points; the pixmap's sides are the scaled
    sides, truncated. *)
Definition sheet (w h : Z) : Fitz.Page := {|
  Fitz.get_pixmap := fun a d =>
    pw <- scaled a w ;;
    ph <- scaled d h ;;
    Ok {| Fitz.width := Z.abs pw; Fitz.height := Z.abs ph;
          Fitz.samples := repeat 255 (Z.to_nat (3 * Z.abs pw * Z.abs ph)) |}
|}.

Definition ten_pages : Fitz.Document := {| Fitz.pages := repeat dot 10 |}.

(** A document that opens and holds no page. *)
Definition no_pages : Fitz.Document := {| Fitz.pages := [] |}.

Definition booklet : Fitz.Document := {| Fitz.pages := [sheet 4 3; torn] |}.

Definition minus_one : float := dyadic (-1) 0.

Definition pdf_bytes : list Byte.byte := [Byte.x25; Byte.x50; Byte.x44; Byte.x46].
Definition junk_bytes : list Byte.byte := [Byte.x00].

(** A backend that opens [pdf_bytes] and the bundled path as the
    ten-page document, and rejects everything else. *)
Definition library : Fitz.Library := {|
  Fitz.open_path := fun p =>
    if String.eqb p "/srv/documents/tracing_positional_bias_in_finance_decision_making.pdf"
    then Ok ten_pages
    else Raise (LibraryError "no such file");
  Fitz.open_stream := fun raw =>
    if bytes_eqb raw pdf_bytes then Ok ten_pages
    else Raise (LibraryError "Failed to open stream")
|}.

(** A Unicode database that knows the Arabic-Indic digits (U+0660 to
    U+0669) and the no-break space (U+00A0), and nothing else past
    ASCII. *)
Fixpoint to_ascii (s : string) : string :=
  match s with
  | EmptyString => EmptyString
  | String c rest =>
      let b := N_of_ascii c in
      if (b <? 127)%N then String c (to_ascii rest)
      else
        match rest with
        | String c1 rest1 =>
            let b1 := N_of_ascii c1 in
            if ((b =? 217) && (160 <=? b1) && (b1 <=? 169))%N
            then String (ascii_of_N (b1 - 112)) (to_ascii rest1)
            else if ((b =? 194) && (b1 =? 160))%N
                 then String " "%char (to_ascii rest1)
                 else "?"%string
        | EmptyString => "?"%string
        end
  end.

Definition arabic : Py.Unicode := {|
  Py.decimal_and_space_to_ascii := to_ascii
|}.

(** A C [long] of 64 bits. *)
Definition fits_long (z : Z) : bool := (- 2 ^ 63 <=? z) && (z <? 2 ^ 63).

(** A Pillow that holds images of up to [2^28] pixels and refuses the
    rectangles that Pillow refuses from 9.5 on: one with a corner that
    does not fit a C [long], and one with [x1 < x0] or [y1 < y0]. *)
Definition strict_pillow : PIL.Library := {|
  PIL.can_allocate := fun sz => fst sz * snd sz <=? 2 ^ 28;
  PIL.rectangle_error := fun xy =>
    let '(x0, y0, x1, y1) := xy in
    if negb (fits_long x0 && fits_long y0 && fits_long x1 && fits_long y1)
    then Some (LibraryError "coordinate does not fit a C long")
    else if (x1 <? x0) || (y1 <? y0) then Some ValueError
    else None
|}.

Definition env_with (lib : option Fitz.Library) : Env := {|
  unicode := arabic;
  pillow := strict_pillow;
  fitz := lib;
  truetype := fun _ _ => None;
  load_default := font;
  app_root := "/srv";
  path_exists := fun p =>
    String.eqb p "/srv/documents/tracing_positional_bias_in_finance_decision_making.pdf";
  json_loads := fun _ => Raise ValueError;
  json_load_path := fun _ => Raise ValueError;
  hash_bytes := fun raw => Z.of_nat (List.length raw);
  mkdtemp := fun prefix => ("/tmp/" ++ prefix ++ "0")%string
|}.

Definition env : Env := env_with (Some library).

(** A backend that opens everything as the booklet. *)
Definition booklet_env : Env := env_with (Some {|
  Fitz.open_path := fun _ => Ok booklet;
  Fitz.open_stream := fun _ => Ok booklet
|}).

Definition records : list value := [
  VDict [("text", VStr "first"); ("page_no", VInt 0)]%string;
  VDict [("text", VStr "second"); ("page", VInt 4);
         ("bbox", VList [quarter; quarter; three_quarters; three_quarters])]%string;
  VStr "third"
].

Definition json_bytes : list Byte.byte := [Byte.x5b; Byte.x5d].

(** [env], with a JSON parser that reads [json_bytes] as [records]. *)
Definition env_with_records : Env := {|
  unicode := unicode env;
  pillow := pillow env;
  fitz := fitz env;
  truetype := truetype env;
  load_default := load_default env;
  app_root := app_root env;
  path_exists := path_exists env;
  json_loads := fun raw =>
    if bytes_eqb raw json_bytes then Ok (VList records) else Raise ValueError;
  json_load_path := json_load_path env;
  hash_bytes := hash_bytes env;
  mkdtemp := mkdtemp env
|}.

(** A backend that opens everything as the document without pages. *)
Definition no_pages_env : Env := env_with (Some {|
  Fitz.open_path := fun _ => Ok no_pages;
  Fitz.open_stream := fun _ => Ok no_pages
|}).

Definition click (prev next : bool) : Inputs := {|
  api_key := "";
  json_mode := "Upload JSON";
  pdf_upload := Some pdf_bytes;
  json_uploader := Some json_bytes;
  prev_clicked := prev;
  next_clicked := next
|}.
Definition env_no_fitz : Env := env_with None.

Definition fresh : World := {|
  session := {| json_hash := None; pdf_hash := None; pos_index := None |};
  load_path_cache := [];
  load_bytes_cache := [];
  render_path_cache := [];
  render_bytes_cache := [];
  raster_calls := 0;
  screen := []
|}.

Definition blank (w h : Z) : PIL.Image := {|
  PIL.mode := "RGB";
  PIL.size := (w, h);
  PIL.base := PIL.Solid (255, 255, 255);
  PIL.ops := []
|}.

End Sample.

(* ================================================================== *)
(** * Vocabulary of the statements *)
(* ================================================================== *)

(** The world after one more run of a rasterizer body. *)
Definition ticked (w : World) : World := snd (tick w).

(** The world after [evs] have been put on the page. *)
Definition shown (w : World) (evs : list ui_event) : World := {|
  session := session w;
  load_path_cache := load_path_cache w;
  load_bytes_cache := load_bytes_cache w;
  render_path_cache := render_path_cache w;
  render_bytes_cache := render_bytes_cache w;
  raster_calls := raster_calls w;
  screen := screen w ++ evs
|}.


(** What a rasterizer body returns; it does not depend on the world. *)
Definition raster_result_path (env : Env) (k : render_path_key)
  : result PIL.Image :=
  let '(path, page_index, zoom) := k in
  match fitz env with
  | None => Raise fitz_missing
  | Some lib =>
      doc <- Fitz.open_path lib path ;; render_page doc page_index zoom
  end.

Definition raster_result_bytes (env : Env) (k : render_bytes_key)
  : result PIL.Image :=
  let '(raw, page_index, zoom) := k in
  match fitz env with
  | None => Raise fitz_missing
  | Some lib =>
      doc <- Fitz.open_stream lib raw ;; render_page doc page_index zoom
  end.

(** A float that is a number: not a NaN, not an infinity. *)
Definition finite (f : float) : bool :=
  match f with
  | S754_zero _ | S754_finite _ _ _ => true
  | _ => false
  end.

(** The exact value of a finite float, as a fraction whose denominator
    is a power of two. *)
Definition float_num (f : float) : Z :=
  match f with
  | S754_finite s m e => cond_Zopp s (Zpos m) * 2 ^ Z.max e 0
  | _ => 0
  end.

Definition float_den (f : float) : Z :=
  match f with
  | S754_finite _ _ e => 2 ^ Z.max (- e) 0
  | _ => 1
  end.

(** A binary64 number of magnitude below [2^53]: a zero, or a mantissa
    of at most 53 digits with an exponent that is not positive. *)
Definition modest (f : float) : bool :=
  match f with
  | S754_zero _ => true
  | S754_finite _ m e => (Zpos (digits2_pos m) <=? 53) && (e <=? 0)
  | _ => false
  end.

(** A binary64 number, well formed, of magnitude at most 1. *)
Definition unit_magnitude (f : float) : bool :=
  valid_binary prec emax f &&
  SFleb (SFabs f) (S754_finite false 4503599627370496 (-52)).

(** A bbox entry that is an int or a modest float. *)
Definition plain_number (v : value) : bool :=
  match v with
  | VInt _ => true
  | VFloat f => modest f
  | _ => false
  end.

(** [z] is [int(c * side)] for a bbox entry [c] that is a number: the
    product itself for an int; for a float the binary64 product with the
    side, a number, with its fraction dropped. *)
Definition truncated_product (c : value) (side z : Z) : Prop :=
  match c with
  | VInt a => z = a * side
  | VFloat f =>
      exists g,
        float_of_int side = Ok g /\ finite (fmul f g) = true /\
        z = Z.quot (float_num (fmul f g)) (float_den (fmul f g))
  | _ => False
  end.

(** The world once [st.session_state.pos_index = i] has run. *)
Definition with_pos_index (w : World) (i : Z) : World :=
  snd (set_pos_index i w).

(** A computation that leaves the session state as it found it,
    whether it returns or raises. *)
Definition keeps_session {A} (m : M A) : Prop :=
  forall w, session (snd (m w)) = session w.

(** What a step may do to the world and stay within [n] rasterizer
    runs: [pdf_hash] and the path loader's table are as before, the
    count of rasterizer runs grew by [n] at most, and the page was only
    added to. *)
Definition footprint (n : nat) (w w' : World) : Prop :=
  pdf_hash (session w') = pdf_hash (session w) /\
  load_path_cache w' = load_path_cache w /\
  (raster_calls w <= raster_calls w' <= raster_calls w + n)%nat /\
  exists evs, screen w' = screen w ++ evs.

Definition within {A} (n : nat) (m : M A) : Prop :=
  forall w, footprint n w (snd (m w)).

(** Where lines 128-147 of [main] leave [pos_index]: the stored index
    (0 when there is none) clamped, then moved by the button pressed,
    "Next" winning when both are. *)
Definition next_index (inp : Inputs) (stored : option Z) (records : Z) : Z :=
  let max_index := records - 1 in
  let current_index :=
    ensure_index_bounds (match stored with Some i => i | None => 0 end)
      max_index in
  if next_clicked inp
  then ensure_index_bounds (current_index + 1) max_index
  else if prev_clicked inp
       then ensure_index_bounds (current_index - 1) max_index
       else current_index.

(** The world with its session replaced. *)
Definition with_session (w : World) (s : Session) : World :=
  snd (put_session s w).

(** The world once [st.session_state.json_hash = h] has run. *)
Definition with_json_hash (w : World) (h : Z) : World :=
  snd (set_json_hash h w).

(** The session that lines 128-147 of [main] leave behind. *)
Definition moved (inp : Inputs) (s : Session) (records : Z) : Session := {|
  json_hash := json_hash s;
  pdf_hash := pdf_hash s;
  pos_index := Some (next_index inp (pos_index s) records)
|}.

(** The world after lines 115-119 of [main]: the uploaded file's hash
    compared with the stored one, and stored with the index back at 0
    when they differ. *)
Definition after_upload (env : Env) (json_bytes : list Byte.byte) (w : World)
  : World :=
  let h := hash_bytes env json_bytes in
  match json_hash (session w) with
  | Some h' => if Z.eqb h' h then w else with_pos_index (with_json_hash w h) 0
  | None => with_pos_index (with_json_hash w h) 0
  end.

(** The messages of [main]. *)
Definition upload_prompt : ui_event :=
  Info (Plain
    "Upload a JSON file (or choose Generate from PDF and upload a PDF) to begin.").

Definition bad_format : ui_event :=
  Error (Plain "No tracing data found or unexpected format.").

Definition api_key_required : ui_event :=
  SidebarWarning (Plain "API key required to generate JSON from PDF.").

Definition not_implemented : exn :=
  NotImplementedError "PDF-to-JSON generation is not implemented yet.".

(** The clamp written inside the rasterizers, on its own. *)
Definition max_min_clamp (index max_index : Z) : Z :=
  Z.max 0 (Z.min index max_index).

(** The warning [main] shows when the import of fitz failed. *)
Definition fitz_required : ui_event :=
  Warning (Plain
    "PyMuPDF is required to render PDF pages. Install with: pip install pymupdf").

(* ================================================================== *)
(** * Properties *)
(* ================================================================== *)

(** ** Index clamp *)

Lemma ensure_index_bounds_cases (index max_index : Z) :
  (index < 0 /\ ensure_index_bounds index max_index = 0) \/
  (0 <= index /\ max_index < index /\
   ensure_index_bounds index max_index = max_index) \/
  (0 <= index <= max_index /\ ensure_index_bounds index max_index = index).
Proof.
  unfold ensure_index_bounds.
  destruct (Z.ltb_spec index 0) as [Hneg | Hpos].
  - left. split; [assumption | reflexivity].
  - right.
    destruct (Z.gtb_spec index max_index) as [Hbig | Hin].
    + left. repeat split; assumption.
    + right. split; [lia | reflexivity].
Qed.

(** C2.  With [0 <= max_index], the clamp gives 0 below 0, [max_index]
    above [max_index] and the index itself in between; so its result
    lies in [0, max_index] and clamping twice is clamping once. *)
Theorem ensure_index_bounds_spec (index max_index : Z) :
  0 <= max_index ->
  (index < 0 -> ensure_index_bounds index max_index = 0) /\
  (index > max_index -> ensure_index_bounds index max_index = max_index) /\
  (0 <= index <= max_index -> ensure_index_bounds index max_index = index) /\
  0 <= ensure_index_bounds index max_index <= max_index /\
  ensure_index_bounds (ensure_index_bounds index max_index) max_index =
    ensure_index_bounds index max_index.
Proof.
  intro Hmax.
  destruct (ensure_index_bounds_cases index max_index)
    as [[Hlo E] | [[Hlo [Hhi E]] | [Hin E]]].
  - rewrite E. repeat split; try lia.
    destruct (ensure_index_bounds_cases 0 max_index)
      as [[? ?] | [[? [? ?]] | [? E0]]]; lia.
  - rewrite E. repeat split; try lia.
    destruct (ensure_index_bounds_cases max_index max_index)
      as [[? ?] | [[? [? ?]] | [? E0]]]; lia.
  - rewrite E. repeat split; try lia.
Qed.

Lemma ensure_index_bounds_spec_witness :
  0 <= 2 /\
  ensure_index_bounds (-4) 2 = 0 /\
  ensure_index_bounds 7 2 = 2 /\
  ensure_index_bounds 1 2 = 1 /\
  ensure_index_bounds (ensure_index_bounds 7 2) 2 = ensure_index_bounds 7 2.
Proof.
  split; [lia |].
  split; [apply (ensure_index_bounds_spec (-4) 2); lia |].
  split; [apply (ensure_index_bounds_spec 7 2); lia |].
  split; [apply (ensure_index_bounds_spec 1 2); lia |].
  apply (ensure_index_bounds_spec 7 2); lia.
Defined.

(** ** Records: defaults for the fields a record leaves out *)



Lemma draw_overlay_without_four (env : Env) (d : list (string * value))
      (img : PIL.Image) :
  four_entries (dict_get d "bbox") = false ->
  draw_overlay env (VDict d) img = Ok img.
Proof.
  unfold draw_overlay. intro H.
  destruct (dict_get d "bbox") as [| b | z | f | s | l | d']; try reflexivity.
  destruct l as [| x0 [| y0 [| x1 [| y1 [| extra l]]]]]; try reflexivity.
  discriminate H.
Qed.

Lemma show_page_unchanged (env : Env) (item : value) (img : PIL.Image)
      (w : World) :
  draw_overlay env item img = Ok img ->
  show_page env item img w = emit (ShowImage img) w.
Proof.
  intro H. unfold show_page, mbind, lift. rewrite H. reflexivity.
Qed.



(** Page numbers written as text, read as [int] reads them: blanks
    around the digits and underscores between them are accepted, a
    control character such as the unit separator is not a blank, text
    past ASCII is read through the Unicode database (here the
    Arabic-Indic digits one and two), and more than 4300 digits are
    refused. *)
Lemma int_of_str_examples :
  (forall u, int_of_str u " 12 " = Ok 12) /\
  (forall u, int_of_str u "-1_000" = Ok (-1000)) /\
  (forall u, int_of_str u "iv" = Raise ValueError) /\
  (forall u, int_of_str u (String (ascii_of_N 31) "5") = Raise ValueError) /\
  int_of_str Sample.arabic
    (String (ascii_of_N 217) (String (ascii_of_N 161)
       (String (ascii_of_N 217) (String (ascii_of_N 162) EmptyString)))) =
    Ok 12 /\
  resolve_page_no Sample.env
    (VDict [("page_no",
             VStr (String (ascii_of_N 217) (String (ascii_of_N 161)
                     (String (ascii_of_N 217)
                        (String (ascii_of_N 162) EmptyString)))))]%string) =
    Ok 12 /\
  (forall u, is_ok (int_of_str u (str_repeat "1" 4300)) = true) /\
  (forall u, int_of_str u (str_repeat "1" 4301) = Raise ValueError).
Proof. repeat split; intros; vm_compute; reflexivity. Qed.

(** ** A bbox that is not a four-entry list *)

(** C10.  When [bbox] is there but is not a list of exactly four
    entries, nothing is drawn: the page image is shown as rendered and
    nothing is raised.  Whenever the overlay step gives anything other
    than the image it was given, [bbox] is a list of four entries. *)
Theorem malformed_bbox_ignored (env : Env) (d : list (string * value))
        (img : PIL.Image) :
  (four_entries (dict_get d "bbox") = false ->
   draw_overlay env (VDict d) img = Ok img /\
   forall w, show_page env (VDict d) img w = emit (ShowImage img) w) /\
  (draw_overlay env (VDict d) img <> Ok img ->
   exists x0 y0 x1 y1, dict_get d "bbox" = VList [x0; y0; x1; y1]).
Proof.
  split.
  - intro H. split.
    + apply draw_overlay_without_four, H.
    + intro w. apply show_page_unchanged, draw_overlay_without_four, H.
  - intro Hdrawn.
    destruct (four_entries (dict_get d "bbox")) eqn:Hfour.
    + unfold four_entries in Hfour.
      destruct (dict_get d "bbox") as [| b | z | f | s | l | d'];
        try discriminate Hfour.
      destruct l as [| x0 [| y0 [| x1 [| y1 [| extra l]]]]];
        try discriminate Hfour.
      exists x0, y0, x1, y1. reflexivity.
    + exfalso. apply Hdrawn. apply draw_overlay_without_four, Hfour.
Qed.

Lemma malformed_bbox_ignored_witness :
  draw_overlay Sample.env
    (VDict [("bbox", VList [Sample.quarter; Sample.quarter;
                            Sample.three_quarters])]%string)
    (Sample.blank 400 200) = Ok (Sample.blank 400 200) /\
  draw_overlay Sample.env (VDict [("bbox", VStr "0,0,1,1")]%string)
    (Sample.blank 400 200) = Ok (Sample.blank 400 200).
Proof.
  split.
  - apply (malformed_bbox_ignored Sample.env
             [("bbox", VList [Sample.quarter; Sample.quarter;
                              Sample.three_quarters])]%string).
    reflexivity.
  - apply (malformed_bbox_ignored Sample.env
             [("bbox", VStr "0,0,1,1")]%string).
    reflexivity.
Defined.

(** ** The rasterizers: which page is loaded *)

Lemma clamped_page_range (doc : Fitz.Document) (page_index : Z) :
  1 <= Fitz.page_count doc ->
  0 <= clamped_page doc page_index <= Fitz.page_count doc - 1.
Proof. unfold clamped_page. lia. Qed.

Lemma load_page_in_range (doc : Fitz.Document) (i : Z) :
  0 <= i < Fitz.page_count doc ->
  exists page, Fitz.load_page doc i = Ok page.
Proof.
  intros [Hlo Hhi]. unfold Fitz.load_page.
  replace (0 <=? i) with true by (symmetry; apply Z.leb_le; exact Hlo).
  replace (i <? Fitz.page_count doc) with true
    by (symmetry; apply Z.ltb_lt; exact Hhi).
  simpl.
  destruct (nth_error (Fitz.pages doc) (Z.to_nat i)) as [page |] eqn:Hnth.
  - exists page. reflexivity.
  - exfalso. apply nth_error_None in Hnth.
    unfold Fitz.page_count in Hhi. lia.
Qed.

Lemma render_page_unfold (doc : Fitz.Document) (page_index : Z) (zoom : float) :
  render_page doc page_index zoom =
  (page <- Fitz.load_page doc (clamped_page doc page_index) ;;
   page_image page zoom).
Proof. reflexivity. Qed.

Lemma clamped_page_idem (doc : Fitz.Document) (page_index : Z) :
  clamped_page doc (clamped_page doc page_index) = clamped_page doc page_index.
Proof. unfold clamped_page. lia. Qed.

Lemma rasterize_path_run (env : Env) (k : render_path_key) (w : World) :
  rasterize_path env k w = (raster_result_path env k, ticked w).
Proof.
  destruct k as [[path page_index] zoom].
  unfold rasterize_path, raster_result_path, mbind, ticked. simpl.
  destruct (fitz env); reflexivity.
Qed.

Lemma rasterize_bytes_run (env : Env) (k : render_bytes_key) (w : World) :
  rasterize_bytes env k w = (raster_result_bytes env k, ticked w).
Proof.
  destruct k as [[raw page_index] zoom].
  unfold rasterize_bytes, raster_result_bytes, mbind, ticked. simpl.
  destruct (fitz env); reflexivity.
Qed.

(** C3, as the specification has it, fails: a document can open and
    hold no page.  The clamp then gives index 0, which is not a page of
    it, and every render call raises, whatever the index asked for. *)
Lemma render_raises_without_pages :
  Fitz.open_stream
    {| Fitz.open_path := fun _ => Ok Sample.no_pages;
       Fitz.open_stream := fun _ => Ok Sample.no_pages |}
    Sample.pdf_bytes = Ok Sample.no_pages /\
  Fitz.page_count Sample.no_pages = 0 /\
  (forall page_index zoom,
     clamped_page Sample.no_pages page_index = 0 /\
     render_page Sample.no_pages page_index zoom = Raise ValueError) /\
  fst (render_pdf_page_from_bytes Sample.no_pages_env Sample.pdf_bytes (-5)
         default_zoom Sample.fresh) = Raise ValueError /\
  fst (render_pdf_page_from_bytes Sample.no_pages_env Sample.pdf_bytes 0
         default_zoom Sample.fresh) = Raise ValueError /\
  fst (render_pdf_page_from_path Sample.no_pages_env
         (PDF_PATH Sample.no_pages_env) 10000 default_zoom Sample.fresh) =
    Raise ValueError.
Proof.
  split; [reflexivity |]. split; [reflexivity |].
  split; [| repeat split].
  intros page_index zoom.
  assert (Hclamp : clamped_page Sample.no_pages page_index = 0).
  { unfold clamped_page. change (Fitz.page_count Sample.no_pages) with 0. lia. }
  split; [exact Hclamp |].
  rewrite render_page_unfold, Hclamp. reflexivity.
Qed.

(** C3, amended.  A rasterizer loads the page whose index is the
    request clamped by [max(0, min(page_index, page_count - 1))]; a
    request below 0 is a request for page 0.  On a document that opened
    with at least one page the clamped index lies in
    [0, page_count - 1], loading that page never fails, and a request
    past the end is a request for the last page.  On ten pages, -5
    renders page 0 and 10000 renders page 9.  On a document that opened
    with no page, every request raises. *)
Theorem render_clamps_page_index (doc : Fitz.Document) (zoom : float) :
  (forall page_index,
     render_page doc page_index zoom =
       render_page doc (clamped_page doc page_index) zoom) /\
  (forall page_index, page_index < 0 ->
     render_page doc page_index zoom = render_page doc 0 zoom) /\
  (forall env lib raw path page_index w,
     fitz env = Some lib ->
     (Fitz.open_stream lib raw = Ok doc ->
      fst (rasterize_bytes env (raw, page_index, zoom) w) =
        render_page doc (clamped_page doc page_index) zoom) /\
     (Fitz.open_path lib path = Ok doc ->
      fst (rasterize_path env (path, page_index, zoom) w) =
        render_page doc (clamped_page doc page_index) zoom)) /\
  (1 <= Fitz.page_count doc ->
     (forall page_index,
        0 <= clamped_page doc page_index <= Fitz.page_count doc - 1 /\
        exists page,
          Fitz.load_page doc (clamped_page doc page_index) = Ok page /\
          render_page doc page_index zoom = page_image page zoom) /\
     (forall page_index, Fitz.page_count doc - 1 < page_index ->
        render_page doc page_index zoom =
          render_page doc (Fitz.page_count doc - 1) zoom)) /\
  (Fitz.page_count doc = 10 ->
     exists first last,
       Fitz.load_page doc 0 = Ok first /\
       Fitz.load_page doc 9 = Ok last /\
       render_page doc (-5) zoom = page_image first zoom /\
       render_page doc 10000 zoom = page_image last zoom) /\
  (Fitz.page_count doc = 0 ->
     forall page_index,
       render_page doc page_index zoom = Raise ValueError).
Proof.
  assert (Hsame : forall i j, clamped_page doc i = clamped_page doc j ->
                    render_page doc i zoom = render_page doc j zoom).
  { intros i j Hij. rewrite !render_page_unfold, Hij. reflexivity. }
  assert (Hclamp : forall i, render_page doc i zoom =
                     render_page doc (clamped_page doc i) zoom).
  { intro i. apply Hsame. symmetry. apply clamped_page_idem. }
  assert (Hloads : 1 <= Fitz.page_count doc -> forall i,
            exists page,
              Fitz.load_page doc (clamped_page doc i) = Ok page /\
              render_page doc i zoom = page_image page zoom).
  { intros Hpages i.
    pose proof (clamped_page_range doc i Hpages) as Hrange.
    destruct (load_page_in_range doc (clamped_page doc i)) as [page Hpage];
      [lia |].
    exists page. split; [exact Hpage |].
    rewrite render_page_unfold, Hpage. reflexivity. }
  split; [exact Hclamp |].
  split; [| split; [| split; [| split]]].
  - intros page_index Hneg. apply Hsame. unfold clamped_page. lia.
  - intros env lib raw path page_index w Hfitz. split; intro Hopen.
    + rewrite rasterize_bytes_run. simpl. rewrite Hfitz, Hopen. simpl.
      apply Hclamp.
    + rewrite rasterize_path_run. simpl. rewrite Hfitz, Hopen. simpl.
      apply Hclamp.
  - intro Hpages. split.
    + intro page_index. split; [apply clamped_page_range, Hpages |].
      apply Hloads, Hpages.
    + intros page_index Hbig. apply Hsame. unfold clamped_page. lia.
  - intro Hten.
    destruct (Hloads ltac:(lia) (-5)) as [first [Hfirst Hr0]].
    destruct (Hloads ltac:(lia) 10000) as [last [Hlast Hr9]].
    replace (clamped_page doc (-5)) with 0 in Hfirst
      by (unfold clamped_page; lia).
    replace (clamped_page doc 10000) with 9 in Hlast
      by (unfold clamped_page; lia).
    exists first, last. repeat split; assumption.
  - intros Hnone page_index. rewrite render_page_unfold.
    replace (clamped_page doc page_index) with 0
      by (unfold clamped_page; lia).
    unfold Fitz.load_page. rewrite Hnone. reflexivity.
Qed.

Lemma render_clamps_page_index_witness :
  1 <= Fitz.page_count Sample.ten_pages /\
  Fitz.page_count Sample.ten_pages = 10 /\
  (exists first last,
     Fitz.load_page Sample.ten_pages 0 = Ok first /\
     Fitz.load_page Sample.ten_pages 9 = Ok last /\
     render_page Sample.ten_pages (-5) default_zoom =
       page_image first default_zoom /\
     render_page Sample.ten_pages 10000 default_zoom =
       page_image last default_zoom) /\
  0 <= clamped_page Sample.ten_pages 10000 <= 9 /\
  is_ok (render_page Sample.ten_pages (-5) default_zoom) = true /\
  is_ok (render_page Sample.ten_pages 10000 default_zoom) = true.
Proof.
  assert (Hpages : 1 <= Fitz.page_count Sample.ten_pages)
    by (vm_compute; discriminate).
  pose proof (render_clamps_page_index Sample.ten_pages default_zoom)
    as [_ [_ [_ [Hone [Hten _]]]]].
  split; [exact Hpages |].
  split; [reflexivity |].
  split; [apply Hten; reflexivity |].
  split; [apply (Hone Hpages) |].
  split; reflexivity.
Defined.

(** ** The render cache *)

Lemma float_eqb_refl (x : float) : float_eqb x x = true.
Proof.
  destruct x as [s | s | | s m e]; simpl.
  - apply Bool.eqb_reflx.
  - apply Bool.eqb_reflx.
  - reflexivity.
  - rewrite Bool.eqb_reflx, Pos.eqb_refl, Z.eqb_refl. reflexivity.
Qed.

Lemma bytes_eqb_refl (a : list Byte.byte) : bytes_eqb a a = true.
Proof.
  induction a as [| x a IH]; simpl.
  - reflexivity.
  - rewrite IH, andb_true_r. destruct x; reflexivity.
Qed.

Lemma render_path_key_eqb_refl (k : render_path_key) :
  render_path_key_eqb k k = true.
Proof.
  destruct k as [[p i] z]. unfold render_path_key_eqb.
  rewrite String.eqb_refl, Z.eqb_refl, float_eqb_refl. reflexivity.
Qed.

Lemma render_bytes_key_eqb_refl (k : render_bytes_key) :
  render_bytes_key_eqb k k = true.
Proof.
  destruct k as [[p i] z]. unfold render_bytes_key_eqb.
  rewrite bytes_eqb_refl, Z.eqb_refl, float_eqb_refl. reflexivity.
Qed.

Section CacheData.

Context {K V : Type} (sl : slot K V) (body : K -> M V).
Hypothesis key_eqb_refl : forall k, key_eqb sl k k = true.
Hypothesis table_set : forall t w, table sl (set_table sl t w) = t.

(** A call that returned a value is answered from the table next
    time, and that second call changes nothing. *)
Lemma cache_data_hit (k : K) (w w1 : World) (v : V) :
  cache_data sl body k w = (Ok v, w1) ->
  cache_data sl body k w1 = (Ok v, w1).
Proof.
  unfold cache_data. intro Hfirst.
  destruct (lookup (key_eqb sl) k (table sl w)) as [v0 |] eqn:Hlook.
  - inversion Hfirst; subst. rewrite Hlook. reflexivity.
  - destruct (body k w) as [[v' | e] w'] eqn:Hbody.
    + inversion Hfirst; subst.
      rewrite table_set. simpl. rewrite key_eqb_refl. reflexivity.
    + discriminate Hfirst.
Qed.

(** A call that raised found nothing in the table, ran the body, and
    ends in the world the body left. *)
Lemma cache_data_raise (k : K) (w w1 : World) (e : exn) :
  cache_data sl body k w = (Raise e, w1) ->
  lookup (key_eqb sl) k (table sl w) = None /\ body k w = (Raise e, w1).
Proof.
  unfold cache_data. intro Hcall.
  destruct (lookup (key_eqb sl) k (table sl w)) as [v0 |] eqn:Hlook.
  - discriminate Hcall.
  - split; [reflexivity |].
    destruct (body k w) as [[v' | e'] w'] eqn:Hbody.
    + discriminate Hcall.
    + exact Hcall.
Qed.


End CacheData.


Lemma ticked_calls (w : World) : raster_calls (ticked w) = S (raster_calls w).
Proof. reflexivity. Qed.

(** C4.  When a cached render call has returned an image, the same call
    made again returns that very image and leaves the world exactly as
    it found it: the rasterizer body, which counts each of its runs in
    [raster_calls], has not run.  Whenever the rasterizer can produce an
    image for the arguments, the first call does return one, after at
    most one run of the body. *)
Theorem render_cache_hit (env : Env) (page_index : Z) (zoom : float)
        (w : World) :
  (forall raw img w1,
     render_pdf_page_from_bytes env raw page_index zoom w = (Ok img, w1) ->
     render_pdf_page_from_bytes env raw page_index zoom w1 = (Ok img, w1)) /\
  (forall path img w1,
     render_pdf_page_from_path env path page_index zoom w = (Ok img, w1) ->
     render_pdf_page_from_path env path page_index zoom w1 = (Ok img, w1)) /\
  (forall raw fresh_img,
     raster_result_bytes env (raw, page_index, zoom) = Ok fresh_img ->
     exists img w1,
       render_pdf_page_from_bytes env raw page_index zoom w = (Ok img, w1) /\
       render_pdf_page_from_bytes env raw page_index zoom w1 = (Ok img, w1) /\
       (raster_calls w1 <= S (raster_calls w))%nat) /\
  (forall path fresh_img,
     raster_result_path env (path, page_index, zoom) = Ok fresh_img ->
     exists img w1,
       render_pdf_page_from_path env path page_index zoom w = (Ok img, w1) /\
       render_pdf_page_from_path env path page_index zoom w1 = (Ok img, w1) /\
       (raster_calls w1 <= S (raster_calls w))%nat) /\
  (forall k r w', rasterize_bytes env k w = (r, w') ->
                  raster_calls w' = S (raster_calls w)) /\
  (forall k r w', rasterize_path env k w = (r, w') ->
                  raster_calls w' = S (raster_calls w)).
Proof.
  assert (Hbytes : forall raw img w1,
     render_pdf_page_from_bytes env raw page_index zoom w = (Ok img, w1) ->
     render_pdf_page_from_bytes env raw page_index zoom w1 = (Ok img, w1)).
  { intros raw img w1 Hfirst. unfold render_pdf_page_from_bytes in *.
    apply (cache_data_hit render_bytes_slot (rasterize_bytes env)
             render_bytes_key_eqb_refl (fun t w0 => eq_refl) _ w w1 img Hfirst). }
  assert (Hpath : forall path img w1,
     render_pdf_page_from_path env path page_index zoom w = (Ok img, w1) ->
     render_pdf_page_from_path env path page_index zoom w1 = (Ok img, w1)).
  { intros path img w1 Hfirst. unfold render_pdf_page_from_path in *.
    apply (cache_data_hit render_path_slot (rasterize_path env)
             render_path_key_eqb_refl (fun t w0 => eq_refl) _ w w1 img Hfirst). }
  split; [exact Hbytes |]. split; [exact Hpath |].
  split; [| split; [| split]].
  - intros raw fresh_img Hfresh.
    destruct (render_pdf_page_from_bytes env raw page_index zoom w)
      as [[img | e] w1] eqn:Hfirst.
    + exists img, w1. split; [reflexivity |].
      split; [apply Hbytes, Hfirst |].
      unfold render_pdf_page_from_bytes, cache_data in Hfirst.
      destruct (lookup _ _ _) as [v |].
      * inversion Hfirst; subst. lia.
      * rewrite rasterize_bytes_run, Hfresh in Hfirst.
        inversion Hfirst; subst. simpl. lia.
    + exfalso. unfold render_pdf_page_from_bytes in Hfirst.
      apply cache_data_raise in Hfirst. destruct Hfirst as [_ Hbody].
      rewrite rasterize_bytes_run, Hfresh in Hbody. discriminate Hbody.
  - intros path fresh_img Hfresh.
    destruct (render_pdf_page_from_path env path page_index zoom w)
      as [[img | e] w1] eqn:Hfirst.
    + exists img, w1. split; [reflexivity |].
      split; [apply Hpath, Hfirst |].
      unfold render_pdf_page_from_path, cache_data in Hfirst.
      destruct (lookup _ _ _) as [v |].
      * inversion Hfirst; subst. lia.
      * rewrite rasterize_path_run, Hfresh in Hfirst.
        inversion Hfirst; subst. simpl. lia.
    + exfalso. unfold render_pdf_page_from_path in Hfirst.
      apply cache_data_raise in Hfirst. destruct Hfirst as [_ Hbody].
      rewrite rasterize_path_run, Hfresh in Hbody. discriminate Hbody.
  - intros k r w' Hrun. rewrite rasterize_bytes_run in Hrun.
    inversion Hrun. reflexivity.
  - intros k r w' Hrun. rewrite rasterize_path_run in Hrun.
    inversion Hrun. reflexivity.
Qed.

Lemma render_cache_hit_witness :
  exists img w1,
    render_pdf_page_from_bytes Sample.env Sample.pdf_bytes 3 default_zoom
      Sample.fresh = (Ok img, w1) /\
    raster_calls w1 = 1%nat /\
    render_pdf_page_from_bytes Sample.env Sample.pdf_bytes 3 default_zoom w1 =
      (Ok img, w1).
Proof.
  destruct (render_pdf_page_from_bytes Sample.env Sample.pdf_bytes 3
              default_zoom Sample.fresh) as [[img | e] w1] eqn:Hfirst;
    [| vm_compute in Hfirst; discriminate Hfirst].
  exists img, w1.
  split; [reflexivity |].
  split.
  - vm_compute in Hfirst. inversion Hfirst. reflexivity.
  - apply (render_cache_hit Sample.env 3 default_zoom Sample.fresh).
    exact Hfirst.
Defined.



(** ** Zoom *)

(** C7, as the specification has it, fails: a render call with a zoom of
    -1.0 on a two-page document whose first page rasterizes at any scale
    returns an image; nothing is raised. *)
Lemma negative_zoom_renders :
  SFltb Sample.minus_one (dyadic 0 0) = true /\
  (exists img,
     render_page Sample.booklet 0 Sample.minus_one = Ok img /\
     PIL.size img = (4, 3)) /\
  is_ok (fst (render_pdf_page_from_bytes Sample.booklet_env Sample.pdf_bytes 0
                Sample.minus_one Sample.fresh)) = true.
Proof.
  split; [reflexivity |]. split.
  - eexists. split; [vm_compute; reflexivity | reflexivity].
  - vm_compute. reflexivity.
Qed.

(** C7, amended.  The rasterizers do not look at the zoom: whatever it
    is, it goes unchanged into both scale factors of the backend's
    matrix, and the call returns or raises as the backend then does.
    A call that leaves the zoom out, as both calls in [main] do, uses
    2.0. *)
Theorem zoom_passed_unchecked :
  (forall doc page_index zoom page,
     Fitz.load_page doc (clamped_page doc page_index) = Ok page ->
     render_page doc page_index zoom =
       (pix <- Fitz.get_pixmap page zoom zoom ;;
        PIL.frombytes "RGB" (Fitz.width pix, Fitz.height pix)
          (Fitz.samples pix))) /\
  (forall doc page_index zoom page pix,
     Fitz.load_page doc (clamped_page doc page_index) = Ok page ->
     Fitz.get_pixmap page zoom zoom = Ok pix ->
     render_page doc page_index zoom =
       PIL.frombytes "RGB" (Fitz.width pix, Fitz.height pix)
         (Fitz.samples pix)) /\
  (forall doc page_index zoom page e,
     Fitz.load_page doc (clamped_page doc page_index) = Ok page ->
     Fitz.get_pixmap page zoom zoom = Raise e ->
     render_page doc page_index zoom = Raise e) /\
  default_zoom = S754_finite false 4503599627370496 (-51) /\
  int_of_float default_zoom = Ok 2 /\
  round_of_float default_zoom = Ok 2.
Proof.
  split; [| split; [| split; [| repeat split]]].
  - intros doc page_index zoom page Hpage.
    rewrite render_page_unfold, Hpage. reflexivity.
  - intros doc page_index zoom page pix Hpage Hpix.
    rewrite render_page_unfold, Hpage. unfold page_image. simpl.
    rewrite Hpix. reflexivity.
  - intros doc page_index zoom page e Hpage Hpix.
    rewrite render_page_unfold, Hpage. unfold page_image. simpl.
    rewrite Hpix. reflexivity.
Qed.

Lemma zoom_passed_unchecked_witness :
  Fitz.load_page Sample.booklet (clamped_page Sample.booklet 0) =
    Ok (Sample.sheet 4 3) /\
  render_page Sample.booklet 0 Sample.minus_one =
    (pix <- Fitz.get_pixmap (Sample.sheet 4 3) Sample.minus_one
              Sample.minus_one ;;
     PIL.frombytes "RGB" (Fitz.width pix, Fitz.height pix) (Fitz.samples pix)) /\
  render_page Sample.booklet 7 default_zoom =
    Raise (LibraryError "cannot render page").
Proof.
  destruct zoom_passed_unchecked as [Hany [_ [Hraise _]]].
  split; [reflexivity |].
  split.
  - apply (Hany Sample.booklet 0 Sample.minus_one (Sample.sheet 4 3)).
    reflexivity.
  - apply (Hraise Sample.booklet 7 default_zoom Sample.torn); reflexivity.
Defined.

(** ** The placeholder *)

Lemma build_placeholder_image_ok (env : Env) (width height : Z) :
  0 <= width < 2 ^ 31 -> 0 <= height < 2 ^ 31 ->
  PIL.can_allocate (pillow env) (width, height) = true ->
  exists img,
    build_placeholder_image env width height = Ok img /\
    PIL.size img = (width, height) /\
    PIL.mode img = "RGB"%string.
Proof.
  intros [Hw Hw'] [Hh Hh'] Halloc.
  unfold build_placeholder_image, PIL.new, PIL.check_size, PIL.fits_int.
  cbn [fst snd]. rewrite Halloc.
  replace (0 <=? width) with true by (symmetry; apply Z.leb_le; exact Hw).
  replace (0 <=? height) with true by (symmetry; apply Z.leb_le; exact Hh).
  replace (width <? 2 ^ 31) with true by (symmetry; apply Z.ltb_lt; exact Hw').
  replace (height <? 2 ^ 31) with true by (symmetry; apply Z.ltb_lt; exact Hh').
  cbn [andb negb bind].
  destruct (PIL.font_textbbox _ _) as [[[l t] r] b].
  eexists. split; [reflexivity |]. split; reflexivity.
Qed.

(** The sizes the placeholder cannot have. *)
Lemma build_placeholder_image_raises (env : Env) (width height : Z) :
  (width < 0 \/ height < 0 ->
   build_placeholder_image env width height = Raise ValueError) /\
  (0 <= width -> 0 <= height -> 2 ^ 31 <= width \/ 2 ^ 31 <= height ->
   build_placeholder_image env width height = Raise OverflowError) /\
  (0 <= width < 2 ^ 31 -> 0 <= height < 2 ^ 31 ->
   PIL.can_allocate (pillow env) (width, height) = false ->
   build_placeholder_image env width height = Raise MemoryError).
Proof.
  unfold build_placeholder_image, PIL.new, PIL.check_size, PIL.fits_int.
  cbn [fst snd]. repeat split.
  - intro Hneg.
    replace ((0 <=? width) && (0 <=? height)) with false; [reflexivity |].
    symmetry. apply andb_false_iff.
    destruct Hneg; [left | right]; apply Z.leb_gt; assumption.
  - intros Hw Hh Hbig.
    replace (0 <=? width) with true by (symmetry; apply Z.leb_le; exact Hw).
    replace (0 <=? height) with true by (symmetry; apply Z.leb_le; exact Hh).
    replace ((width <? 2 ^ 31) && (height <? 2 ^ 31)) with false;
      [reflexivity |].
    symmetry. apply andb_false_iff.
    destruct Hbig; [left | right]; apply Z.ltb_ge; assumption.
  - intros [Hw Hw'] [Hh Hh'] Halloc. rewrite Halloc.
    replace (0 <=? width) with true by (symmetry; apply Z.leb_le; exact Hw).
    replace (0 <=? height) with true by (symmetry; apply Z.leb_le; exact Hh).
    replace (width <? 2 ^ 31) with true by (symmetry; apply Z.ltb_lt; exact Hw').
    replace (height <? 2 ^ 31) with true
      by (symmetry; apply Z.ltb_lt; exact Hh').
    reflexivity.
Qed.

(** C8, as the specification has it, fails: the placeholder does have
    error conditions.  Whatever the environment, a negative side is a
    ValueError and a side of 2^31 an OverflowError; and with no backend
    a record whose page number does not convert makes [main] raise
    before the placeholder is reached. *)
Lemma placeholder_refuses_some_sizes :
  (forall env, build_placeholder_image env (-1) 600 = Raise ValueError) /\
  (forall env, build_placeholder_image env (2 ^ 31) 1 = Raise OverflowError) /\
  fitz Sample.env_no_fitz = None /\
  right_col Sample.env_no_fitz (Some Sample.pdf_bytes)
    (VDict [("page_no", VStr "iv")]%string) Sample.fresh =
    (Raise ValueError, Sample.fresh).
Proof.
  split; [| split; [| split]].
  - intro env. apply (build_placeholder_image_raises env (-1) 600). lia.
  - intro env. apply (build_placeholder_image_raises env (2 ^ 31) 1); lia.
  - reflexivity.
  - reflexivity.
Qed.

(** C8, amended.  With no rendering backend, [main] never asks for a
    render: for any record whose page number converts it shows the
    warning and then the placeholder at its default 900 by 600, provided
    Pillow can allocate that image, and raises nothing; a page number
    that does not convert raises out of the panel before that.  The
    rasterizers themselves, were they called, raise the RuntimeError
    that [main]'s handler would replace by the same placeholder.  The
    placeholder is built in mode RGB and of exactly the size asked for
    when both sides are in [0, 2^31) and Pillow can allocate the image;
    a negative side is a ValueError, a side from 2^31 on (neither being
    negative) an OverflowError, an image that cannot be allocated a
    MemoryError. *)
Theorem placeholder_when_backend_missing (env : Env) :
  fitz env = None ->
  (forall pdf_upload current_item page_no w,
     resolve_page_no env current_item = Ok page_no ->
     PIL.can_allocate (pillow env) (900, 600) = true ->
     exists img,
       build_placeholder_image env 900 600 = Ok img /\
       PIL.size img = (900, 600) /\
       PIL.mode img = "RGB"%string /\
       right_col env pdf_upload current_item w =
         (Ok tt, shown w [fitz_required; ShowImage img])) /\
  (forall pdf_upload current_item e w,
     resolve_page_no env current_item = Raise e ->
     right_col env pdf_upload current_item w = (Raise e, w)) /\
  (forall k w, rasterize_path env k w = (Raise fitz_missing, ticked w)) /\
  (forall k w, rasterize_bytes env k w = (Raise fitz_missing, ticked w)) /\
  (forall width height,
     0 <= width < 2 ^ 31 -> 0 <= height < 2 ^ 31 ->
     PIL.can_allocate (pillow env) (width, height) = true ->
     exists img,
       build_placeholder_image env width height = Ok img /\
       PIL.size img = (width, height) /\
       PIL.mode img = "RGB"%string) /\
  (forall width height,
     width < 0 \/ height < 0 ->
     build_placeholder_image env width height = Raise ValueError) /\
  (forall width height,
     0 <= width -> 0 <= height -> 2 ^ 31 <= width \/ 2 ^ 31 <= height ->
     build_placeholder_image env width height = Raise OverflowError) /\
  (forall width height,
     0 <= width < 2 ^ 31 -> 0 <= height < 2 ^ 31 ->
     PIL.can_allocate (pillow env) (width, height) = false ->
     build_placeholder_image env width height = Raise MemoryError).
Proof.
  intro Hfitz.
  split; [| split; [| split; [| split; [| split; [| split; [| split]]]]]].
  - intros pdf_upload current_item page_no w Hpage Halloc.
    destruct (build_placeholder_image_ok env 900 600)
      as [img [Himg [Hsz Hmode]]]; [lia | lia | exact Halloc |].
    exists img. repeat split; try assumption.
    unfold right_col, mbind, lift. rewrite Hpage, Hfitz.
    unfold show_placeholder, mbind, lift, default_width, default_height.
    simpl. rewrite Himg. unfold emit, shown. simpl.
    rewrite <- app_assoc. reflexivity.
  - intros pdf_upload current_item e w Hpage.
    unfold right_col, mbind, lift. rewrite Hpage. reflexivity.
  - intros [[path page_index] zoom] w. rewrite rasterize_path_run.
    unfold raster_result_path. rewrite Hfitz. reflexivity.
  - intros [[raw page_index] zoom] w. rewrite rasterize_bytes_run.
    unfold raster_result_bytes. rewrite Hfitz. reflexivity.
  - intros width height. apply build_placeholder_image_ok.
  - intros width height. apply build_placeholder_image_raises.
  - intros width height. apply build_placeholder_image_raises.
  - intros width height. apply build_placeholder_image_raises.
Qed.

Lemma placeholder_when_backend_missing_witness :
  fitz Sample.env_no_fitz = None /\
  (exists img,
     build_placeholder_image Sample.env_no_fitz 900 600 = Ok img /\
     PIL.size img = (900, 600) /\
     PIL.mode img = "RGB"%string /\
     right_col Sample.env_no_fitz (Some Sample.pdf_bytes)
       (VDict [("page_no", VInt 3)]%string) Sample.fresh =
       (Ok tt, shown Sample.fresh [fitz_required; ShowImage img])) /\
  (exists img,
     build_placeholder_image Sample.env_no_fitz 320 0 = Ok img /\
     PIL.size img = (320, 0) /\
     PIL.mode img = "RGB"%string) /\
  build_placeholder_image Sample.env_no_fitz 320 (-1) = Raise ValueError /\
  build_placeholder_image Sample.env_no_fitz 4294967296 1 =
    Raise OverflowError /\
  build_placeholder_image Sample.env_no_fitz 1073741824 1073741824 =
    Raise MemoryError.
Proof.
  destruct (placeholder_when_backend_missing Sample.env_no_fitz eq_refl)
    as [Hmain [_ [_ [_ [Hany [Hneg [Hbig Hmem]]]]]]].
  split; [reflexivity |].
  split.
  { apply (Hmain (Some Sample.pdf_bytes) (VDict [("page_no", VInt 3)]%string)
                 3 Sample.fresh); reflexivity. }
  split; [apply (Hany 320 0); [lia | lia | reflexivity] |].
  split; [apply (Hneg 320 (-1)); lia |].
  split; [apply (Hbig 4294967296 1); lia |].
  apply (Hmem 1073741824 1073741824); [lia | lia | reflexivity].
Defined.

(** ** Binary64 arithmetic behind the overlay *)

Lemma digits2_pos_size (p : positive) : digits2_pos p = Pos.size p.
Proof. induction p as [p IH | p IH |]; simpl; congruence. Qed.

Lemma Zpos_digits2_log2 (p : positive) :
  Zpos (digits2_pos p) = Z.log2 (Zpos p) + 1.
Proof.
  rewrite digits2_pos_size.
  destruct p as [p | p |]; simpl; try reflexivity; lia.
Qed.

Lemma Zdigits2_le_log2 (m : Z) : 0 <= m -> Zdigits2 m <= Z.log2 m + 1.
Proof.
  intro Hm. destruct m as [| p | p]; simpl.
  - lia.
  - rewrite Zpos_digits2_log2. simpl. lia.
  - lia.
Qed.

Lemma Zdigits2_pos_eq (p : positive) : Zdigits2 (Zpos p) = Z.log2 (Zpos p) + 1.
Proof. apply Zpos_digits2_log2. Qed.

Lemma Zdigits2_nonneg (m : Z) : 0 <= Zdigits2 m.
Proof. destruct m; simpl; lia. Qed.

Lemma iter_pos_iter {A} (f : A -> A) (p : positive) (x : A) :
  iter_pos f p x = Pos.iter f x p.
Proof.
  revert x. induction p as [p IH | p IH |]; intro x; simpl.
  - rewrite !IH. rewrite <- !Pos.iter_swap. reflexivity.
  - rewrite !IH. reflexivity.
  - reflexivity.
Qed.

Lemma shr_1_m (mrs : shr_record) :
  0 <= shr_m mrs -> shr_m (shr_1 mrs) = Z.div2 (shr_m mrs).
Proof.
  destruct mrs as [m r s]. simpl. intro Hm.
  destruct m as [| [p | p |] | p]; try reflexivity. lia.
Qed.

Lemma shr_iter_m (p : positive) (mrs : shr_record) :
  0 <= shr_m mrs ->
  shr_m (iter_pos shr_1 p mrs) = Z.shiftr (shr_m mrs) (Zpos p).
Proof.
  intro Hm. rewrite iter_pos_iter.
  induction p as [| p IH] using Pos.peano_ind.
  - simpl Pos.iter. rewrite shr_1_m by exact Hm. apply Z.div2_spec.
  - rewrite Pos.iter_succ, shr_1_m.
    + rewrite IH, Z.div2_spec, Z.shiftr_shiftr by lia. f_equal. lia.
    + rewrite IH. apply Z.shiftr_nonneg. exact Hm.
Qed.

Lemma shr_record_of_loc_m (m : Z) (l : location) :
  shr_m (shr_record_of_loc m l) = m.
Proof. destruct l as [| []]; reflexivity. Qed.

Lemma fexp_eq (x : Z) : fexp prec emax x = Z.max (x - 53) (-1074).
Proof. reflexivity. Qed.

(** Where [shr_fexp] leaves the exponent and the mantissa. *)
Lemma shr_fexp_spec (m e : Z) (l : location) :
  0 <= m ->
  let r := shr_fexp prec emax m e l in
  snd r = Z.max e (fexp prec emax (Zdigits2 m + e)) /\
  shr_m (fst r) = Z.shiftr m (snd r - e).
Proof.
  intro Hm. unfold shr_fexp, shr.
  set (t := fexp prec emax (Zdigits2 m + e)).
  destruct (t - e) as [| p | p] eqn:Hn; cbn [fst snd].
  - split; [lia |]. rewrite shr_record_of_loc_m, Z.sub_diag. reflexivity.
  - split; [lia |].
    rewrite shr_iter_m by (rewrite shr_record_of_loc_m; exact Hm).
    rewrite shr_record_of_loc_m. f_equal. lia.
  - split; [lia |]. rewrite shr_record_of_loc_m, Z.sub_diag. reflexivity.
Qed.

Lemma round_nearest_even_range (m : Z) (l : location) :
  0 <= m -> m <= round_nearest_even m l <= m + 1.
Proof.
  intro Hm. destruct l as [| []]; simpl; try lia.
  destruct (Z.even m); lia.
Qed.

Lemma Zdigits2_shiftr (m n : Z) :
  0 <= m -> 0 <= n -> Zdigits2 (Z.shiftr m n) <= Z.max 1 (Zdigits2 m - n).
Proof.
  intros Hm Hn.
  destruct (Z.eq_dec m 0) as [-> | Hnz].
  - rewrite Z.shiftr_0_l. simpl. lia.
  - pose proof (Zdigits2_le_log2 (Z.shiftr m n)) as H1.
    rewrite Z.log2_shiftr in H1 by lia.
    destruct m as [| p | p]; try lia.
    rewrite (Zdigits2_pos_eq p).
    specialize (H1 ltac:(apply Z.shiftr_nonneg; lia)). lia.
Qed.

Lemma Zdigits2_mono (a b : Z) : 0 <= a <= b -> Zdigits2 a <= Zdigits2 b.
Proof.
  intros [Ha Hab].
  destruct a as [| p | p]; [apply Zdigits2_nonneg | | lia].
  destruct b as [| q | q]; try lia.
  rewrite !Zdigits2_pos_eq.
  pose proof (Z.log2_le_mono (Zpos p) (Zpos q) Hab). lia.
Qed.

Lemma Zdigits2_succ (m : Z) : 0 <= m -> Zdigits2 (m + 1) <= Zdigits2 m + 1.
Proof.
  intro Hm. destruct m as [| p | p]; try lia.
  - simpl. lia.
  - replace (Zpos p + 1) with (Zpos (p + 1)) by lia.
    rewrite !Zdigits2_pos_eq.
    pose proof (Z.log2_succ_le (Zpos p)).
    replace (Z.succ (Zpos p)) with (Zpos (p + 1)) in H by lia. lia.
Qed.

(** What [binary_round_aux] can return for a non-negative mantissa that
    is not too large: a zero or a finite number, with at most 53 digits
    and an exponent it has raised by a bounded amount. *)
Lemma binary_round_aux_shape (s : bool) (m e : Z) (l : location) :
  0 <= m -> e <= 971 -> Zdigits2 m + e <= 1023 ->
  match binary_round_aux prec emax s m e l with
  | S754_zero _ => True
  | S754_finite _ m' e' =>
      Zpos (digits2_pos m') <= 53 /\
      e' <= Z.max (Z.max e (Zdigits2 m + e - 52)) (-1074)
  | _ => False
  end.
Proof.
  intros Hm He Hd. unfold binary_round_aux.
  pose proof (shr_fexp_spec m e l Hm) as H1. cbv zeta in H1.
  destruct (shr_fexp prec emax m e l) as [mrs1 e1]. cbn [fst snd] in H1.
  destruct H1 as [He1 Hm1].
  set (m2 := round_nearest_even (shr_m mrs1) (loc_of_shr_record mrs1)).
  assert (Hm1pos : 0 <= shr_m mrs1)
    by (rewrite Hm1; apply Z.shiftr_nonneg; exact Hm).
  pose proof (round_nearest_even_range (shr_m mrs1) (loc_of_shr_record mrs1)
                Hm1pos) as Hm2. fold m2 in Hm2.
  assert (Hm2pos : 0 <= m2) by lia.
  pose proof (shr_fexp_spec m2 e1 loc_Exact Hm2pos) as H2. cbv zeta in H2.
  destruct (shr_fexp prec emax m2 e1 loc_Exact) as [mrs2 e2].
  cbn [fst snd] in H2. destruct H2 as [He2 Hm3].
  rewrite fexp_eq in He1, He2.
  assert (Hd1 : Zdigits2 (shr_m mrs1) <= Z.max 1 (Zdigits2 m - (e1 - e))).
  { rewrite Hm1. apply Zdigits2_shiftr; lia. }
  assert (Hd2 : Zdigits2 m2 <= Zdigits2 (shr_m mrs1) + 1).
  { transitivity (Zdigits2 (shr_m mrs1 + 1)).
    - apply Zdigits2_mono. lia.
    - apply Zdigits2_succ. exact Hm1pos. }
  assert (Hd3 : Zdigits2 (shr_m mrs2) <= Z.max 1 (Zdigits2 m2 - (e2 - e1))).
  { rewrite Hm3. apply Zdigits2_shiftr; lia. }
  pose proof (Zdigits2_nonneg m) as Hdm.
  destruct (shr_m mrs2) as [| p | p] eqn:Hres.
  - exact I.
  - replace (e2 <=? emax - prec) with true.
    + simpl in Hd3. split; lia.
    + symmetry. apply Z.leb_le. unfold emax, prec. lia.
  - pose proof (Z.shiftr_nonneg m2 (e2 - e1)) as Hnn. lia.
Qed.

Lemma digits2_pos_iter_xO (m d : positive) :
  digits2_pos (Pos.iter xO m d) = (digits2_pos m + d)%positive.
Proof.
  induction d as [| d IH] using Pos.peano_ind.
  - simpl. lia.
  - rewrite Pos.iter_succ. simpl. rewrite IH. lia.
Qed.

Lemma Zpos_iter_xO (m d : positive) :
  Zpos (Pos.iter xO m d) = Zpos m * 2 ^ Zpos d.
Proof.
  induction d as [| d IH] using Pos.peano_ind.
  - simpl. lia.
  - rewrite Pos.iter_succ, Pos2Z.inj_xO, IH, Pos2Z.inj_succ, Z.pow_succ_r by lia.
    ring.
Qed.

(** [shl_align] lowers the exponent to [ex'] when that is lower, and
    keeps the value. *)
Lemma shl_align_spec (mx : positive) (ex ex' : Z) :
  let r := shl_align mx ex ex' in
  snd r = Z.min ex ex' /\
  Zpos (digits2_pos (fst r)) = Zpos (digits2_pos mx) + (ex - snd r) /\
  Zpos (fst r) = Zpos mx * 2 ^ (ex - snd r).
Proof.
  unfold shl_align.
  destruct (ex' - ex) as [| d | d] eqn:Hd; cbn [fst snd].
  - replace (ex - ex) with 0 by lia. rewrite Z.pow_0_r. lia.
  - replace (ex - ex) with 0 by lia. rewrite Z.pow_0_r. lia.
  - rewrite digits2_pos_iter_xO, Zpos_iter_xO.
    replace (ex - ex') with (Zpos d) by lia. lia.
Qed.

Lemma Zpos_digits_bound (p : positive) :
  2 ^ (Zpos (digits2_pos p) - 1) <= Zpos p < 2 ^ Zpos (digits2_pos p).
Proof.
  rewrite Zpos_digits2_log2.
  pose proof (Z.log2_spec (Zpos p) ltac:(lia)) as H.
  replace (Z.log2 (Zpos p) + 1 - 1) with (Z.log2 (Zpos p)) by lia.
  replace (Z.log2 (Zpos p) + 1) with (Z.succ (Z.log2 (Zpos p))) by lia.
  exact H.
Qed.

Lemma Zpos_digits_small (p : positive) (k : Z) :
  0 <= k -> Zpos p < 2 ^ k -> Zpos (digits2_pos p) <= k.
Proof.
  intros Hk Hlt.
  destruct (Z_le_gt_dec (Zpos (digits2_pos p)) k) as [Hle | Hgt]; [exact Hle |].
  exfalso.
  pose proof (Zpos_digits_bound p) as [Hlo _].
  assert (2 ^ k <= 2 ^ (Zpos (digits2_pos p) - 1))
    by (apply Z.pow_le_mono_r; lia).
  lia.
Qed.

(** A canonical mantissa with an exact location goes through
    [binary_round_aux] untouched. *)
Lemma binary_round_aux_canonical (s : bool) (m : positive) (e : Z) :
  Zpos (digits2_pos m) = 53 -> -1074 <= e <= 971 ->
  binary_round_aux prec emax s (Zpos m) e loc_Exact = S754_finite s m e.
Proof.
  intros Hd He. unfold binary_round_aux, shr_fexp.
  cbn [Zdigits2 shr_record_of_loc]. rewrite Hd, fexp_eq.
  replace (Z.max (53 + e - 53) (-1074) - e) with 0 by lia.
  cbn [shr shr_m loc_of_shr_record round_nearest_even Zdigits2
       shr_record_of_loc].
  rewrite Hd, fexp_eq.
  replace (Z.max (53 + e - 53) (-1074) - e) with 0 by lia.
  cbn [shr shr_m].
  replace (e <=? emax - prec) with true; [reflexivity |].
  symmetry. apply Z.leb_le. unfold emax, prec. lia.
Qed.

(** [float(W)] for [0 < W < 2^53] is exact: a 53-digit mantissa and the
    exponent that makes it worth [W]. *)
Lemma float_of_int_exact (W : positive) :
  Zpos W < 2 ^ 53 ->
  exists m e,
    float_of_int (Zpos W) = Ok (S754_finite false m e) /\
    Zpos (digits2_pos m) = 53 /\ -52 <= e <= 0 /\
    Zpos m = Zpos W * 2 ^ (- e).
Proof.
  intro HW. unfold float_of_int, binary_normalize, binary_round.
  pose proof (shl_align_spec W 0 (fexp prec emax (Zpos (digits2_pos W) + 0)))
    as Hs. cbv zeta in Hs.
  destruct (shl_align W 0 (fexp prec emax (Zpos (digits2_pos W) + 0)))
    as [mz ez]. cbn [fst snd] in Hs. destruct Hs as [Hez [Hdig Hval]].
  rewrite fexp_eq in Hez.
  pose proof (Zpos_digits_small W 53 ltac:(lia) HW) as Hsmall.
  assert (Hdpos : 0 < Zpos (digits2_pos W)) by lia.
  assert (Hez' : ez = Zpos (digits2_pos W) - 53) by lia.
  rewrite binary_round_aux_canonical by lia.
  exists mz, ez. split; [reflexivity |].
  split; [lia |]. split; [lia |].
  rewrite Hval. reflexivity.
Qed.

Lemma shr_iter_exact (m d : positive) :
  iter_pos shr_1 d
    {| shr_m := Zpos (Pos.iter xO m d); shr_r := false; shr_s := false |} =
  {| shr_m := Zpos m; shr_r := false; shr_s := false |}.
Proof.
  rewrite iter_pos_iter.
  induction d as [| d IH] using Pos.peano_ind.
  - reflexivity.
  - rewrite Pos.iter_succ_r, Pos.iter_succ. cbn [shr_1 orb]. exact IH.
Qed.

(** Multiplying by 1.0 gives the other factor back. *)
Lemma fmul_one_l (m : positive) (e : Z) :
  Zpos (digits2_pos m) = 53 -> -1022 <= e <= 971 ->
  fmul (S754_finite false 4503599627370496 (-52)) (S754_finite false m e) =
  S754_finite false m e.
Proof.
  intros Hd He. unfold fmul, SFmul. cbn [xorb].
  change (4503599627370496 * m)%positive with (Pos.iter xO m 52).
  unfold binary_round_aux, shr_fexp. cbn [Zdigits2 shr_record_of_loc].
  rewrite digits2_pos_iter_xO, Pos2Z.inj_add, Hd, fexp_eq.
  replace (Z.max (53 + 52 + (-52 + e) - 53) (-1074) - (-52 + e)) with 52
    by lia.
  cbn [shr]. rewrite shr_iter_exact.
  cbn [shr_m loc_of_shr_record round_nearest_even Zdigits2 shr_record_of_loc].
  rewrite Hd, fexp_eq.
  replace (-52 + e + 52) with e by lia.
  replace (Z.max (53 + e - 53) (-1074) - e) with 0 by lia.
  cbn [shr shr_m].
  replace (e <=? emax - prec) with true; [reflexivity |].
  symmetry. apply Z.leb_le. unfold emax, prec. lia.
Qed.

Lemma shiftl_back (W e : Z) : e <= 0 -> Z.shiftl (W * 2 ^ (- e)) e = W.
Proof.
  intro He. rewrite <- Z.shiftr_opp_r, Z.shiftr_div_pow2 by lia.
  apply Z.div_mul. apply Z.pow_nonzero; lia.
Qed.

(** [int(f)] is the exact value of [f] with its fraction dropped:
    the quotient that rounds toward zero. *)
Lemma int_of_float_truncates (f : float) :
  finite f = true ->
  int_of_float f = Ok (Z.quot (float_num f) (float_den f)).
Proof.
  destruct f as [s | s | | s m e]; try discriminate; intros _.
  - reflexivity.
  - unfold int_of_float, float_num, float_den. f_equal.
    destruct (Z_le_gt_dec 0 e) as [Hpos | Hneg].
    + rewrite (Z.max_l e 0), (Z.max_r (- e) 0) by lia.
      rewrite Z.pow_0_r, Z.quot_1_r, Z.shiftl_mul_pow2 by lia.
      destruct s; cbn [cond_Zopp]; ring.
    + rewrite (Z.max_r e 0), (Z.max_l (- e) 0) by lia.
      rewrite Z.pow_0_r, Z.mul_1_r.
      rewrite <- Z.shiftr_opp_r, Z.shiftr_div_pow2 by lia.
      assert (Hden : 0 < 2 ^ (- e)) by (apply Z.pow_pos_nonneg; lia).
      destruct s; cbn [cond_Zopp].
      * rewrite Z.quot_opp_l by lia.
        rewrite Z.quot_div_nonneg by lia. reflexivity.
      * rewrite Z.quot_div_nonneg by lia. reflexivity.
Qed.

Lemma to_pixel_int (env : Env) (z side : Z) :
  to_pixel env (VInt z) side = Ok (z * side).
Proof. reflexivity. Qed.

Lemma to_pixel_float (env : Env) (f g : float) (side : Z) :
  float_of_int side = Ok g ->
  to_pixel env (VFloat f) side = int_of_float (fmul f g).
Proof. intro Hg. unfold to_pixel, mul_int. rewrite Hg. reflexivity. Qed.

(** 1.0 scales a side to itself, 0.0 to 0. *)
Lemma to_pixel_one (env : Env) (side : Z) :
  0 <= side < 2 ^ 53 ->
  to_pixel env (VFloat (S754_finite false 4503599627370496 (-52))) side =
    Ok side.
Proof.
  intros [Hlo Hhi]. destruct side as [| W | W]; [reflexivity | | lia].
  destruct (float_of_int_exact W Hhi) as [m [e [Hf [Hd [He Hval]]]]].
  rewrite (to_pixel_float _ _ _ _ Hf), fmul_one_l by lia.
  unfold int_of_float. cbn [cond_Zopp]. rewrite Hval, shiftl_back by lia.
  reflexivity.
Qed.

Lemma to_pixel_zero (env : Env) (s : bool) (side : Z) :
  0 <= side < 2 ^ 53 -> to_pixel env (VFloat (S754_zero s)) side = Ok 0.
Proof.
  intros [Hlo Hhi]. destruct side as [| W | W]; [reflexivity | | lia].
  destruct (float_of_int_exact W Hhi) as [m [e [Hf _]]].
  rewrite (to_pixel_float _ _ _ _ Hf). reflexivity.
Qed.

(** A modest float times a side below [2^53] is a finite float. *)
Lemma fmul_modest_finite (f : float) (side : Z) :
  modest f = true -> 0 <= side < 2 ^ 53 ->
  exists g, float_of_int side = Ok g /\ finite (fmul f g) = true.
Proof.
  intros Hf [Hlo Hhi]. destruct side as [| W | W]; [| | lia].
  - exists (S754_zero false). split; [reflexivity |].
    destruct f as [s | s | | s m e]; try discriminate Hf; reflexivity.
  - destruct (float_of_int_exact W Hhi) as [mg [eg [Hg [Hdg [Heg _]]]]].
    exists (S754_finite false mg eg). split; [exact Hg |].
    destruct f as [s | s | | s m e]; try discriminate Hf; [reflexivity |].
    unfold modest in Hf. apply andb_true_iff in Hf. destruct Hf as [Hdf Hef].
    apply Z.leb_le in Hdf, Hef.
    unfold fmul, SFmul.
    pose proof (Zpos_digits_bound m) as [_ Hm].
    pose proof (Zpos_digits_bound mg) as [_ Hmg].
    assert (Hm53 : Zpos m < 2 ^ 53).
    { eapply Z.lt_le_trans; [exact Hm |]. apply Z.pow_le_mono_r; lia. }
    rewrite Hdg in Hmg.
    assert (Hprod : Zpos (m * mg) < 2 ^ 106).
    { rewrite Pos2Z.inj_mul. change (2 ^ 106) with (2 ^ 53 * 2 ^ 53).
      apply Z.mul_lt_mono_nonneg; lia. }
    pose proof (Zpos_digits_small (m * mg) 106 ltac:(lia) Hprod) as Hdp.
    pose proof (binary_round_aux_shape (xorb s false) (Zpos (m * mg))
                  (e + eg) loc_Exact ltac:(lia) ltac:(lia)
                  ltac:(cbn [Zdigits2]; lia)) as Hshape.
    destruct (binary_round_aux prec emax (xorb s false) (Zpos (m * mg))
                (e + eg) loc_Exact); try contradiction; reflexivity.
Qed.

(** One coordinate: a number whose product with the side is a number. *)
Lemma to_pixel_truncated (env : Env) (c : value) (side z : Z) :
  truncated_product c side z -> to_pixel env c side = Ok z.
Proof.
  destruct c as [| b | a | f | t | l | d]; simpl; try contradiction.
  - intro Hz. subst z. reflexivity.
  - intros [g [Hg [Hfin Hz]]].
    rewrite (to_pixel_float _ _ _ _ Hg), (int_of_float_truncates _ Hfin).
    subst z. reflexivity.
Qed.

Lemma plain_truncated (c : value) (side : Z) :
  plain_number c = true -> 0 <= side < 2 ^ 53 ->
  exists z, truncated_product c side z.
Proof.
  intros Hc Hside.
  destruct c as [| b | z | f | t | l | d]; try discriminate Hc.
  - exists (z * side). reflexivity.
  - destruct (fmul_modest_finite f side Hc Hside) as [g [Hg Hfin]].
    eexists. exists g. split; [exact Hg |]. split; [exact Hfin | reflexivity].
Qed.

Lemma to_pixel_plain (env : Env) (c : value) (side : Z) :
  plain_number c = true -> 0 <= side < 2 ^ 53 ->
  exists z, to_pixel env c side = Ok z /\ truncated_product c side z.
Proof.
  intros Hc Hside. destruct (plain_truncated c side Hc Hside) as [z Hz].
  exists z. split; [apply to_pixel_truncated, Hz | exact Hz].
Qed.

Lemma pixel_rect_truncated (env : Env) (W H : Z) (x0 y0 x1 y1 : value)
      (px0 py0 px1 py1 : Z) :
  truncated_product x0 W px0 -> truncated_product y0 H py0 ->
  truncated_product x1 W px1 -> truncated_product y1 H py1 ->
  pixel_rect env (W, H) x0 y0 x1 y1 = Ok (px0, py0, px1, py1).
Proof.
  intros Hx0 Hy0 Hx1 Hy1. unfold pixel_rect.
  rewrite (to_pixel_truncated env _ _ _ Hx0), (to_pixel_truncated env _ _ _ Hx1),
          (to_pixel_truncated env _ _ _ Hy0), (to_pixel_truncated env _ _ _ Hy1).
  reflexivity.
Qed.

Lemma unit_magnitude_modest (f : float) :
  unit_magnitude f = true -> modest f = true.
Proof.
  unfold unit_magnitude. intro H. apply andb_true_iff in H.
  destruct H as [Hvalid Hle].
  destruct f as [s | s | | s m e]; try discriminate Hle; [reflexivity |].
  unfold modest. apply andb_true_iff.
  unfold valid_binary, bounded, canonical_mantissa in Hvalid.
  apply andb_true_iff in Hvalid. destruct Hvalid as [Hcanon _].
  apply Z.eqb_eq in Hcanon. rewrite fexp_eq in Hcanon.
  split; apply Z.leb_le; [lia |].
  unfold SFleb, SFabs, SFcompare in Hle.
  destruct (Z.compare_spec e (-52)) as [Heq | Hlt | Hgt];
    [lia | lia | discriminate Hle].
Qed.

(** ** The overlay rectangle *)

(** C1, as the specification has it, fails: on a 5 by 5 image the box
    (0.25, 0.25, 0.75, 0.75) is mapped to (1, 1, 3, 3), where rounding
    gives (1, 1, 4, 4). *)
Lemma pixel_rect_is_not_rounded :
  pixel_rect Sample.env (5, 5) Sample.quarter Sample.quarter
    Sample.three_quarters Sample.three_quarters = Ok (1, 1, 3, 3) /\
  rounded_pixel_rect Sample.env (5, 5) Sample.quarter Sample.quarter
    Sample.three_quarters Sample.three_quarters = Ok (1, 1, 4, 4).
Proof. split; reflexivity. Qed.

(** C1, amended.  The overlay code computes the rectangle
    [(int(x0*W), int(y0*H), int(x1*W), int(y1*H))], coordinate by
    coordinate, whatever mix of ints and floats the box holds: for an
    int entry the product is the integer product, for a float entry it
    is the binary64 product with the side, of which [int] drops the
    fraction, rounding toward zero.  Every box of ints and of floats of
    magnitude below 2^53 (so every value in [0, 1]) on an image with
    sides below 2^53 has such a rectangle.  The box
    (0.25, 0.25, 0.75, 0.75) on a 400 by 200 image gives
    (100, 50, 300, 150), the box (0, 0.25, 1, 0.75) gives
    (0, 50, 400, 150), and the full-frame box, written with ints or
    with floats, gives [(0, 0, W, H)]. *)
Theorem pixel_rect_truncates (env : Env) :
  (forall W H x0 y0 x1 y1 px0 py0 px1 py1,
     truncated_product x0 W px0 -> truncated_product y0 H py0 ->
     truncated_product x1 W px1 -> truncated_product y1 H py1 ->
     pixel_rect env (W, H) x0 y0 x1 y1 = Ok (px0, py0, px1, py1)) /\
  (forall W H x0 y0 x1 y1,
     plain_number x0 = true -> plain_number y0 = true ->
     plain_number x1 = true -> plain_number y1 = true ->
     0 <= W < 2 ^ 53 -> 0 <= H < 2 ^ 53 ->
     exists px0 py0 px1 py1,
       pixel_rect env (W, H) x0 y0 x1 y1 = Ok (px0, py0, px1, py1) /\
       truncated_product x0 W px0 /\ truncated_product y0 H py0 /\
       truncated_product x1 W px1 /\ truncated_product y1 H py1) /\
  (forall f, unit_magnitude f = true -> plain_number (VFloat f) = true) /\
  (forall W H a b c d fw fh,
     float_of_int W = Ok fw -> float_of_int H = Ok fh ->
     finite (fmul a fw) = true -> finite (fmul b fh) = true ->
     finite (fmul c fw) = true -> finite (fmul d fh) = true ->
     pixel_rect env (W, H) (VFloat a) (VFloat b) (VFloat c) (VFloat d) =
       Ok (Z.quot (float_num (fmul a fw)) (float_den (fmul a fw)),
           Z.quot (float_num (fmul b fh)) (float_den (fmul b fh)),
           Z.quot (float_num (fmul c fw)) (float_den (fmul c fw)),
           Z.quot (float_num (fmul d fh)) (float_den (fmul d fh)))) /\
  (forall W H a b c d,
     pixel_rect env (W, H) (VInt a) (VInt b) (VInt c) (VInt d) =
       Ok (a * W, b * H, c * W, d * H)) /\
  pixel_rect env (400, 200) Sample.quarter Sample.quarter
    Sample.three_quarters Sample.three_quarters = Ok (100, 50, 300, 150) /\
  pixel_rect env (400, 200) (VInt 0) Sample.quarter
    (VInt 1) Sample.three_quarters = Ok (0, 50, 400, 150) /\
  draw_overlay env
    (VDict [("bbox", VList [Sample.quarter; Sample.quarter;
                            Sample.three_quarters; Sample.three_quarters])]%string)
    (Sample.blank 400 200) =
    PIL.rectangle (pillow env) (Sample.blank 400 200) (100, 50, 300, 150)
      (220, 20, 60) 4 /\
  (forall W H,
     pixel_rect env (W, H) (VInt 0) (VInt 0) (VInt 1) (VInt 1) =
       Ok (0, 0, W, H)) /\
  (forall W H,
     0 <= W < 2 ^ 53 -> 0 <= H < 2 ^ 53 ->
     pixel_rect env (W, H) Sample.zero Sample.zero Sample.one Sample.one =
       Ok (0, 0, W, H)).
Proof.
  split; [| split; [| split; [| split; [| split; [| split; [| split;
    [| split; [| split]]]]]]]].
  - intros W H x0 y0 x1 y1 px0 py0 px1 py1. apply pixel_rect_truncated.
  - intros W H x0 y0 x1 y1 Hx0 Hy0 Hx1 Hy1 HW HH.
    destruct (plain_truncated x0 W Hx0 HW) as [px0 Hpx0].
    destruct (plain_truncated y0 H Hy0 HH) as [py0 Hpy0].
    destruct (plain_truncated x1 W Hx1 HW) as [px1 Hpx1].
    destruct (plain_truncated y1 H Hy1 HH) as [py1 Hpy1].
    exists px0, py0, px1, py1.
    split; [apply pixel_rect_truncated; assumption |].
    repeat split; assumption.
  - intros f Hf. apply unit_magnitude_modest, Hf.
  - intros W H a b c d fw fh Hfw Hfh Ha Hb Hc Hd.
    apply pixel_rect_truncated; simpl;
      first [ exists fw; repeat split; assumption
            | exists fh; repeat split; assumption ].
  - intros W H a b c d. reflexivity.
  - reflexivity.
  - reflexivity.
  - reflexivity.
  - intros W H. unfold pixel_rect. rewrite !to_pixel_int. cbn [bind].
    rewrite !Z.mul_1_l. reflexivity.
  - intros W H HW HH. unfold pixel_rect.
    change Sample.zero with (VFloat (S754_zero false)).
    change Sample.one with (VFloat (S754_finite false 4503599627370496 (-52))).
    rewrite (to_pixel_zero env false W HW), (to_pixel_zero env false H HH),
            (to_pixel_one env W HW), (to_pixel_one env H HH).
    reflexivity.
Qed.

Lemma pixel_rect_truncates_witness :
  pixel_rect Sample.env (1224, 1584) Sample.zero Sample.zero
    Sample.one Sample.one = Ok (0, 0, 1224, 1584) /\
  pixel_rect Sample.env (5, 5) Sample.quarter (VInt 0)
    Sample.three_quarters (VInt 1) = Ok (1, 0, 3, 5) /\
  exists px0 py0 px1 py1,
    pixel_rect Sample.env (1224, 1584) (VInt 0) Sample.quarter
      (VInt 1) Sample.three_quarters = Ok (px0, py0, px1, py1) /\
    truncated_product (VInt 0) 1224 px0 /\
    truncated_product Sample.quarter 1584 py0 /\
    truncated_product (VInt 1) 1224 px1 /\
    truncated_product Sample.three_quarters 1584 py1.
Proof.
  destruct (pixel_rect_truncates Sample.env)
    as [Heach [Hplain [Hunit [_ [_ [_ [_ [_ [_ Hframe]]]]]]]]].
  split; [apply (Hframe 1224 1584); lia |].
  split.
  - apply (Heach 5 5 Sample.quarter (VInt 0) Sample.three_quarters (VInt 1)).
    + exists (dyadic 5 0). repeat split.
    + reflexivity.
    + exists (dyadic 5 0). repeat split.
    + reflexivity.
  - apply (Hplain 1224 1584 (VInt 0) Sample.quarter (VInt 1)
             Sample.three_quarters);
      try reflexivity; try lia; apply Hunit; reflexivity.
Defined.

(** ** Which boxes the overlay code can map *)






(** ** Navigation *)

Lemma keeps_ret {A} (a : A) : keeps_session (ret a).
Proof. intro w. reflexivity. Qed.

Lemma keeps_raise {A} (e : exn) : keeps_session (@raise A e).
Proof. intro w. reflexivity. Qed.

Lemma keeps_lift {A} (r : result A) : keeps_session (lift r).
Proof. intro w. reflexivity. Qed.

Lemma keeps_emit (ev : ui_event) : keeps_session (emit ev).
Proof. intro w. reflexivity. Qed.

Lemma keeps_mbind {A B} (m : M A) (k : A -> M B) :
  keeps_session m -> (forall a, keeps_session (k a)) ->
  keeps_session (mbind m k).
Proof.
  intros Hm Hk w. unfold mbind. specialize (Hm w).
  destruct (m w) as [[a | e] w']; simpl in *.
  - rewrite Hk. exact Hm.
  - exact Hm.
Qed.

Lemma keeps_try_except {A} (body : M A) (handles : exn -> bool)
      (handler : exn -> M A) :
  keeps_session body -> (forall e, keeps_session (handler e)) ->
  keeps_session (try_except body handles handler).
Proof.
  intros Hbody Hhandler w. unfold try_except. specialize (Hbody w).
  destruct (body w) as [[a | e] w']; simpl in *.
  - exact Hbody.
  - destruct (handles e); simpl.
    + rewrite Hhandler. exact Hbody.
    + exact Hbody.
Qed.

Lemma keeps_cache_data {K V} (sl : slot K V) (body : K -> M V) (k : K) :
  (forall t w, session (set_table sl t w) = session w) ->
  keeps_session (body k) ->
  keeps_session (cache_data sl body k).
Proof.
  intros Hset Hbody w. unfold cache_data.
  destruct (lookup (key_eqb sl) k (table sl w)) as [v |]; [reflexivity |].
  specialize (Hbody w).
  destruct (body k w) as [[v | e] w']; simpl in *.
  - rewrite Hset. exact Hbody.
  - exact Hbody.
Qed.

Create HintDb keeps.
#[local] Hint Resolve keeps_ret keeps_raise keeps_lift keeps_emit : keeps.
#[local] Hint Extern 2 (keeps_session (mbind _ _)) =>
  apply keeps_mbind; [| intro] : keeps.
#[local] Hint Extern 2 (keeps_session (try_except _ _ _)) =>
  apply keeps_try_except; [| intro] : keeps.

Lemma keeps_render_bytes (env : Env) (raw : list Byte.byte) (i : Z) (z : float) :
  keeps_session (render_pdf_page_from_bytes env raw i z).
Proof.
  apply keeps_cache_data; [reflexivity |].
  intro w. rewrite rasterize_bytes_run. reflexivity.
Qed.

Lemma keeps_render_path (env : Env) (path : string) (i : Z) (z : float) :
  keeps_session (render_pdf_page_from_path env path i z).
Proof.
  apply keeps_cache_data; [reflexivity |].
  intro w. rewrite rasterize_path_run. reflexivity.
Qed.

#[local] Hint Resolve keeps_render_bytes keeps_render_path : keeps.

Lemma keeps_show_placeholder (env : Env) : keeps_session (show_placeholder env).
Proof. unfold show_placeholder. auto with keeps. Qed.

Lemma keeps_show_page (env : Env) (item : value) (img : PIL.Image) :
  keeps_session (show_page env item img).
Proof. unfold show_page. auto with keeps. Qed.

#[local] Hint Resolve keeps_show_placeholder keeps_show_page : keeps.

Lemma keeps_right_col (env : Env) (pdf_upload : option (list Byte.byte))
      (item : value) :
  keeps_session (right_col env pdf_upload item).
Proof.
  unfold right_col. apply keeps_mbind; [auto with keeps |]. intro page_no.
  destruct (fitz env); [| auto with keeps].
  apply keeps_try_except; [| intro; auto with keeps].
  destruct pdf_upload; [auto with keeps |].
  destruct (negb _); auto with keeps.
Qed.

Lemma mbind_get_session {B} (k : Session -> M B) (w : World) :
  mbind get_session k w = k (session w) w.
Proof. reflexivity. Qed.

Lemma mbind_ret {A B} (a : A) (k : A -> M B) (w : World) :
  mbind (ret a) k w = k a w.
Proof. reflexivity. Qed.

Lemma mbind_set_pos_index {B} (i : Z) (k : unit -> M B) (w : World) :
  mbind (set_pos_index i) k w = k tt (with_pos_index w i).
Proof. reflexivity. Qed.

Lemma mbind_read_pos_index {B} (k : Z -> M B) (w : World) (i : Z) :
  pos_index (session w) = Some i ->
  mbind read_pos_index k w = k i w.
Proof.
  intro Hi. unfold read_pos_index. unfold mbind at 1.
  rewrite mbind_get_session, Hi. reflexivity.
Qed.

Lemma session_with_pos_index (w : World) (i : Z) :
  session (with_pos_index w i) =
  {| json_hash := json_hash (session w); pdf_hash := pdf_hash (session w);
     pos_index := Some i |}.
Proof. reflexivity. Qed.

Lemma browse_unfold (env : Env) (inp : Inputs) (data : list value) (w : World) :
  exists w',
    session w' =
      {| json_hash := json_hash (session w);
         pdf_hash := pdf_hash (session w);
         pos_index :=
           Some (next_index inp (pos_index (session w))
                   (Z.of_nat (List.length data))) |} /\
    browse env inp data w =
      (mbind (lift (list_index data
                      (next_index inp (pos_index (session w))
                         (Z.of_nat (List.length data)))))
         (fun current_item =>
            mbind (emit (Markdown (markdown_text current_item)))
              (fun _ => right_col env (pdf_upload inp) current_item))) w'.
Proof.
  set (max_index := Z.of_nat (List.length data) - 1).
  set (stored := match pos_index (session w) with Some i => i | None => 0 end).
  assert (Hfirst : exists w0,
            pos_index (session w0) = Some stored /\
            json_hash (session w0) = json_hash (session w) /\
            pdf_hash (session w0) = pdf_hash (session w) /\
            forall B (k : unit -> M B),
              mbind match pos_index (session w) with
                    | Some _ => ret tt
                    | None => set_pos_index 0
                    end k w = k tt w0).
  { unfold stored. destruct (pos_index (session w)) as [i |] eqn:Hpi.
    - exists w. repeat split; try assumption.
    - exists (with_pos_index w 0). repeat split. }
  destruct Hfirst as [w0 [Hpos0 [Hjh [Hph Hstep]]]].
  assert (Hrun : forall B (k : Z -> M B),
            exists w',
              session w' =
                {| json_hash := json_hash (session w);
                   pdf_hash := pdf_hash (session w);
                   pos_index :=
                     Some (next_index inp (pos_index (session w))
                             (Z.of_nat (List.length data))) |} /\
              mbind get_session (fun s =>
                mbind match pos_index s with
                      | Some _ => ret tt
                      | None => set_pos_index 0
                      end (fun _ =>
                mbind read_pos_index (fun i =>
                mbind (set_pos_index (ensure_index_bounds i max_index)) (fun _ =>
                mbind (if prev_clicked inp
                       then set_pos_index
                              (ensure_index_bounds
                                 (ensure_index_bounds i max_index - 1) max_index)
                       else ret tt) (fun _ =>
                mbind (if next_clicked inp
                       then set_pos_index
                              (ensure_index_bounds
                                 (ensure_index_bounds i max_index + 1) max_index)
                       else ret tt) (fun _ =>
                mbind read_pos_index k)))))) w =
              k (next_index inp (pos_index (session w))
                   (Z.of_nat (List.length data))) w').
  { intros B k. unfold next_index. fold max_index. fold stored.
    rewrite mbind_get_session, Hstep, (mbind_read_pos_index _ _ _ Hpos0).
    rewrite mbind_set_pos_index.
    destruct (prev_clicked inp), (next_clicked inp); cbv beta iota;
      repeat (first [rewrite mbind_set_pos_index | rewrite mbind_ret];
              cbv beta iota);
      (erewrite mbind_read_pos_index
         by (rewrite session_with_pos_index; reflexivity));
      eexists; (split; [| reflexivity]);
      rewrite !session_with_pos_index; cbn [json_hash pdf_hash];
      rewrite Hjh, Hph; reflexivity. }
  apply Hrun.
Qed.

(** Lines 128-147 of [main]: whatever the rest of the run does, it ends
    with [pos_index] at the stored index clamped and moved by the button
    pressed, and with the two hashes untouched. *)
Theorem browse_moves_index (env : Env) (inp : Inputs) (data : list value)
        (w : World) :
  session (snd (browse env inp data w)) =
    {| json_hash := json_hash (session w);
       pdf_hash := pdf_hash (session w);
       pos_index :=
         Some (next_index inp (pos_index (session w))
                 (Z.of_nat (List.length data))) |}.
Proof.
  destruct (browse_unfold env inp data w) as [w' [Hsession Hrun]].
  rewrite Hrun, <- Hsession.
  apply keeps_mbind; [auto with keeps |].
  intro item. apply keeps_mbind; [auto with keeps |].
  intros _. apply keeps_right_col.
Qed.

Lemma browse_moves_index_example :
  pos_index (session (snd (browse Sample.env (Sample.click false true)
                             Sample.records Sample.fresh))) = Some 1 /\
  pos_index (session (snd (browse Sample.env (Sample.click true false)
                             Sample.records Sample.fresh))) = Some 0.
Proof. split; vm_compute; reflexivity. Qed.

(** The scenario of the specification, run through [main]: three
    records, "Next" pressed twice and "Prev" once leave the index at 1;
    "Prev" pressed at index 0 leaves it at 0. *)
Theorem navigation_scenario :
  let run inp w := snd (main Sample.env_with_records inp w) in
  let next := Sample.click false true in
  let prev := Sample.click true false in
  pos_index (session (run prev (run next (run next Sample.fresh)))) = Some 1 /\
  pos_index (session (run prev Sample.fresh)) = Some 0 /\
  pos_index (session (run next (run next (run next Sample.fresh)))) = Some 2.
Proof. vm_compute. repeat split. Qed.

(** ** Failures on the way to the page *)

(** Lines 169-192 of [main]: an exception out of the render call is
    caught, and the warning naming the page and the exception is shown,
    followed by the placeholder at its default size, which Pillow must
    be able to allocate. *)
Theorem render_failure_shows_placeholder (env : Env) (lib : Fitz.Library)
        (raw : list Byte.byte) (current_item : value) (page_no : Z)
        (e : exn) (w w1 : World) :
  fitz env = Some lib ->
  PIL.can_allocate (pillow env) (900, 600) = true ->
  resolve_page_no env current_item = Ok page_no ->
  render_pdf_page_from_bytes env raw page_no default_zoom w = (Raise e, w1) ->
  exists placeholder,
    build_placeholder_image env 900 600 = Ok placeholder /\
    right_col env (Some raw) current_item w =
      (Ok tt, shown w1 [Warning (RenderFailed page_no e);
                        ShowImage placeholder]).
Proof.
  intros Hfitz Halloc Hpage Hrender.
  destruct (build_placeholder_image_ok env 900 600)
    as [placeholder [Hbuild _]]; [lia | lia | exact Halloc |].
  exists placeholder. split; [exact Hbuild |].
  unfold right_col, mbind, lift. rewrite Hpage, Hfitz.
  unfold try_except. rewrite Hrender.
  unfold show_placeholder, mbind, lift, default_width, default_height.
  simpl. rewrite Hbuild. unfold emit, shown. simpl.
  rewrite <- app_assoc. reflexivity.
Qed.

Lemma render_failure_shows_placeholder_witness :
  exists placeholder w1,
    PIL.size placeholder = (900, 600) /\
    right_col Sample.env (Some Sample.junk_bytes)
      (VDict [("page", VInt 2)]%string) Sample.fresh =
      (Ok tt,
       shown w1 [Warning (RenderFailed 2 (LibraryError "Failed to open stream"));
                 ShowImage placeholder]).
Proof.
  pose (first := render_pdf_page_from_bytes Sample.env Sample.junk_bytes 2
                   default_zoom Sample.fresh).
  destruct (render_failure_shows_placeholder Sample.env Sample.library
              Sample.junk_bytes (VDict [("page", VInt 2)]%string) 2
              (LibraryError "Failed to open stream") Sample.fresh (snd first)
              eq_refl eq_refl eq_refl eq_refl) as [placeholder [Hbuild Hrun]].
  exists placeholder, (snd first). split; [| exact Hrun].
  vm_compute in Hbuild. inversion Hbuild. reflexivity.
Defined.

(** ** What the cache is keyed by *)

(** The render cache is keyed by the page index as requested, not as
    clamped: two requests for different indices each run the rasterizer
    and each leave an entry, also when both clamp to the same page. *)
Theorem cache_keyed_by_requested_index (env : Env) (raw : list Byte.byte)
        (i j : Z) (zoom : float) (w : World) (img_i img_j : PIL.Image) :
  i <> j ->
  lookup render_bytes_key_eqb (raw, i, zoom) (render_bytes_cache w) = None ->
  lookup render_bytes_key_eqb (raw, j, zoom) (render_bytes_cache w) = None ->
  raster_result_bytes env (raw, i, zoom) = Ok img_i ->
  raster_result_bytes env (raw, j, zoom) = Ok img_j ->
  exists w1 w2,
    render_pdf_page_from_bytes env raw i zoom w = (Ok img_i, w1) /\
    render_pdf_page_from_bytes env raw j zoom w1 = (Ok img_j, w2) /\
    raster_calls w2 = S (S (raster_calls w)) /\
    render_bytes_cache w2 =
      ((raw, j, zoom), img_j) :: ((raw, i, zoom), img_i) :: render_bytes_cache w.
Proof.
  intros Hij Hmiss_i Hmiss_j Hres_i Hres_j.
  unfold render_pdf_page_from_bytes, cache_data.
  cbn [key_eqb table set_table render_bytes_slot].
  rewrite Hmiss_i, rasterize_bytes_run, Hres_i.
  eexists. eexists. split; [reflexivity |].
  cbn [render_bytes_cache ticked tick snd lookup].
  assert (Hne : render_bytes_key_eqb (raw, j, zoom) (raw, i, zoom) = false).
  { unfold render_bytes_key_eqb.
    replace (j =? i) with false by (symmetry; apply Z.eqb_neq; congruence).
    rewrite andb_false_r. reflexivity. }
  rewrite Hne, Hmiss_j, rasterize_bytes_run, Hres_j.
  repeat split.
Qed.

Lemma cache_keyed_by_requested_index_witness :
  exists img w1 w2,
    render_pdf_page_from_bytes Sample.env Sample.pdf_bytes (-5) default_zoom
      Sample.fresh = (Ok img, w1) /\
    render_pdf_page_from_bytes Sample.env Sample.pdf_bytes 0 default_zoom w1 =
      (Ok img, w2) /\
    raster_calls w2 = 2%nat.
Proof.
  destruct (raster_result_bytes Sample.env
              (Sample.pdf_bytes, -5, default_zoom)) as [img | e] eqn:Hres;
    [| vm_compute in Hres; discriminate Hres].
  assert (Hres0 : raster_result_bytes Sample.env
                    (Sample.pdf_bytes, 0, default_zoom) = Ok img).
  { vm_compute in Hres. vm_compute. exact Hres. }
  destruct (cache_keyed_by_requested_index Sample.env Sample.pdf_bytes (-5) 0
              default_zoom Sample.fresh img img ltac:(discriminate)
              eq_refl eq_refl Hres Hres0)
    as [w1 [w2 [Hfirst [Hsecond [Hcalls _]]]]].
  exists img, w1, w2. repeat split; assumption.
Defined.

(** ** The caches, further *)

Lemma float_eqb_eq (x y : float) : float_eqb x y = true -> x = y.
Proof.
  destruct x as [a | a | | a m e], y as [b | b | | b n f];
    simpl; try discriminate; intro H.
  - apply Bool.eqb_prop in H. congruence.
  - apply Bool.eqb_prop in H. congruence.
  - reflexivity.
  - apply andb_true_iff in H. destruct H as [H He].
    apply andb_true_iff in H. destruct H as [Hs Hm].
    apply Bool.eqb_prop in Hs. apply Pos.eqb_eq in Hm. apply Z.eqb_eq in He.
    congruence.
Qed.

Lemma bytes_eqb_eq (a b : list Byte.byte) : bytes_eqb a b = true -> a = b.
Proof.
  revert b. induction a as [| x a IH]; intros [| y b]; simpl;
    try discriminate; intro H.
  - reflexivity.
  - apply andb_true_iff in H. destruct H as [Hxy Hab].
    apply Byte.byte_dec_bl in Hxy. rewrite Hxy, (IH b Hab). reflexivity.
Qed.

Lemma render_bytes_key_eqb_eq (a b : render_bytes_key) :
  render_bytes_key_eqb a b = true -> a = b.
Proof.
  destruct a as [[p i] z], b as [[q j] y]. unfold render_bytes_key_eqb.
  intro H. apply andb_true_iff in H. destruct H as [H Hz].
  apply andb_true_iff in H. destruct H as [Hp Hi].
  apply bytes_eqb_eq in Hp. apply Z.eqb_eq in Hi. apply float_eqb_eq in Hz.
  congruence.
Qed.

Lemma render_path_key_eqb_eq (a b : render_path_key) :
  render_path_key_eqb a b = true -> a = b.
Proof.
  destruct a as [[p i] z], b as [[q j] y]. unfold render_path_key_eqb.
  intro H. apply andb_true_iff in H. destruct H as [H Hz].
  apply andb_true_iff in H. destruct H as [Hp Hi].
  apply String.eqb_eq in Hp. apply Z.eqb_eq in Hi. apply float_eqb_eq in Hz.
  congruence.
Qed.

Section CacheDataMore.

Context {K V : Type} (sl : slot K V).
Hypothesis key_eqb_refl : forall k, key_eqb sl k k = true.
Hypothesis key_eqb_eq : forall k k', key_eqb sl k k' = true -> k = k'.
Hypothesis table_set : forall t w, table sl (set_table sl t w) = t.

(** A call that returned a value leaves that value in the table. *)
Lemma cache_data_stores (body : K -> M V) (k : K) (w w1 : World) (v : V) :
  cache_data sl body k w = (Ok v, w1) ->
  lookup (key_eqb sl) k (table sl w1) = Some v.
Proof.
  unfold cache_data. intro Hcall.
  destruct (lookup (key_eqb sl) k (table sl w)) as [v0 |] eqn:Hlook.
  - inversion Hcall; subst. exact Hlook.
  - destruct (body k w) as [[v' | e] w'].
    + inversion Hcall; subst. rewrite table_set. simpl.
      rewrite key_eqb_refl. reflexivity.
    + discriminate Hcall.
Qed.

(** A call whose arguments are in the table is answered from it, whatever
    the body would have done. *)
Lemma cache_data_lookup (body : K -> M V) (k : K) (w : World) (v : V) :
  lookup (key_eqb sl) k (table sl w) = Some v ->
  cache_data sl body k w = (Ok v, w).
Proof. unfold cache_data. intro H. rewrite H. reflexivity. Qed.

(** No call removes or replaces an entry, as long as the body itself
    leaves the table alone. *)
Lemma cache_data_keeps (body : K -> M V) (k k' : K) (w w' : World) (v : V)
      (r : result V) :
  (forall w0, table sl (snd (body k' w0)) = table sl w0) ->
  lookup (key_eqb sl) k (table sl w) = Some v ->
  cache_data sl body k' w = (r, w') ->
  lookup (key_eqb sl) k (table sl w') = Some v.
Proof.
  unfold cache_data. intros Hbody Hk Hcall.
  destruct (lookup (key_eqb sl) k' (table sl w)) as [v0 |] eqn:Hk'.
  - inversion Hcall; subst. exact Hk.
  - specialize (Hbody w).
    destruct (body k' w) as [[v' | e] w0]; cbn [snd] in Hbody;
      inversion Hcall; subst.
    + rewrite table_set. simpl.
      destruct (key_eqb sl k k') eqn:Heq.
      * apply key_eqb_eq in Heq. subst k'. rewrite Hbody in *. congruence.
      * rewrite Hbody. exact Hk.
    + rewrite Hbody. exact Hk.
Qed.

End CacheDataMore.

(** Once a cached render call has returned an image, the same call
    returns it again from any environment: the backend of the later
    call is not consulted, be it gone or changed. *)
Theorem cached_render_ignores_backend (env env' : Env) (page_index : Z)
        (zoom : float) (w : World) :
  (forall raw img w1,
     render_pdf_page_from_bytes env raw page_index zoom w = (Ok img, w1) ->
     render_pdf_page_from_bytes env' raw page_index zoom w1 = (Ok img, w1)) /\
  (forall path img w1,
     render_pdf_page_from_path env path page_index zoom w = (Ok img, w1) ->
     render_pdf_page_from_path env' path page_index zoom w1 = (Ok img, w1)).
Proof.
  split.
  - intros raw img w1 Hfirst. unfold render_pdf_page_from_bytes in *.
    apply cache_data_lookup.
    apply (cache_data_stores render_bytes_slot render_bytes_key_eqb_refl
             (fun t w0 => eq_refl) _ _ _ _ _ Hfirst).
  - intros path img w1 Hfirst. unfold render_pdf_page_from_path in *.
    apply cache_data_lookup.
    apply (cache_data_stores render_path_slot render_path_key_eqb_refl
             (fun t w0 => eq_refl) _ _ _ _ _ Hfirst).
Qed.

Lemma cached_render_ignores_backend_witness :
  exists img w1,
    render_pdf_page_from_path Sample.env (PDF_PATH Sample.env) 2 default_zoom
      Sample.fresh = (Ok img, w1) /\
    fst (rasterize_path Sample.env_no_fitz
           (PDF_PATH Sample.env, 2, default_zoom) w1) = Raise fitz_missing /\
    render_pdf_page_from_path Sample.env_no_fitz (PDF_PATH Sample.env) 2
      default_zoom w1 = (Ok img, w1).
Proof.
  destruct (render_pdf_page_from_path Sample.env (PDF_PATH Sample.env) 2
              default_zoom Sample.fresh) as [[img | e] w1] eqn:Hfirst;
    [| vm_compute in Hfirst; discriminate Hfirst].
  exists img, w1. split; [reflexivity |]. split; [reflexivity |].
  apply (cached_render_ignores_backend Sample.env Sample.env_no_fitz 2
           default_zoom Sample.fresh).
  exact Hfirst.
Defined.

(** The render cache never drops or replaces an entry: once a call has
    returned an image, any other render call in between, through either
    function, for any arguments and whatever it returns or raises, leaves
    that call answered with the same image and no rasterizer run. *)
Theorem render_cache_keeps_entries (env : Env) (raw : list Byte.byte)
        (page_index : Z) (zoom : float) (w w1 : World) (img : PIL.Image) :
  render_pdf_page_from_bytes env raw page_index zoom w = (Ok img, w1) ->
  (forall env' raw' page_index' zoom' r w2,
     render_pdf_page_from_bytes env' raw' page_index' zoom' w1 = (r, w2) ->
     render_pdf_page_from_bytes env raw page_index zoom w2 = (Ok img, w2)) /\
  (forall env' path' page_index' zoom' r w2,
     render_pdf_page_from_path env' path' page_index' zoom' w1 = (r, w2) ->
     render_pdf_page_from_bytes env raw page_index zoom w2 = (Ok img, w2)).
Proof.
  intro Hfirst. unfold render_pdf_page_from_bytes in Hfirst.
  pose proof (cache_data_stores render_bytes_slot render_bytes_key_eqb_refl
                (fun t w0 => eq_refl) _ _ _ _ _ Hfirst) as Hstored.
  split.
  - intros env' raw' page_index' zoom' r w2 Hother.
    unfold render_pdf_page_from_bytes in *. apply cache_data_lookup.
    eapply (cache_data_keeps render_bytes_slot render_bytes_key_eqb_eq
              (fun t w0 => eq_refl) (rasterize_bytes env'));
      [| exact Hstored | exact Hother].
    intro w0. rewrite rasterize_bytes_run. reflexivity.
  - intros env' path' page_index' zoom' r w2 Hother.
    unfold render_pdf_page_from_bytes. apply cache_data_lookup.
    cbn [table render_bytes_slot] in *.
    unfold render_pdf_page_from_path, cache_data in Hother.
    destruct (lookup _ _ _) as [v |] in Hother.
    + inversion Hother; subst. exact Hstored.
    + rewrite rasterize_path_run in Hother.
      destruct (raster_result_path env' (path', page_index', zoom'));
        inversion Hother; subst; exact Hstored.
Qed.

Lemma render_cache_keeps_entries_witness :
  exists img w1 w2,
    render_pdf_page_from_bytes Sample.env Sample.pdf_bytes 3 default_zoom
      Sample.fresh = (Ok img, w1) /\
    render_pdf_page_from_bytes Sample.env Sample.junk_bytes 3 default_zoom w1 =
      (Raise (LibraryError "Failed to open stream"), w2) /\
    render_pdf_page_from_bytes Sample.env Sample.pdf_bytes 3 default_zoom w2 =
      (Ok img, w2).
Proof.
  pose (first := render_pdf_page_from_bytes Sample.env Sample.pdf_bytes 3
                   default_zoom Sample.fresh).
  pose (img := {| PIL.mode := "RGB"; PIL.size := (1, 1);
                  PIL.base := PIL.Samples [255; 255; 255]; PIL.ops := [] |}).
  pose (second := render_pdf_page_from_bytes Sample.env Sample.junk_bytes 3
                    default_zoom (snd first)).
  assert (Hfirst : first = (Ok img, snd first)) by reflexivity.
  assert (Hsecond : second = (Raise (LibraryError "Failed to open stream"),
                              snd second)) by reflexivity.
  exists img, (snd first), (snd second).
  split; [exact Hfirst |]. split; [exact Hsecond |].
  destruct (render_cache_keeps_entries Sample.env Sample.pdf_bytes 3
              default_zoom Sample.fresh (snd first) img Hfirst) as [Hkeep _].
  exact (Hkeep _ _ _ _ _ _ Hsecond).
Defined.

(** ** The two clamps *)

(** The index clamp and the clamp written inside the rasterizers are the
    same function as long as the upper bound is not negative, and then it
    is monotone; below that they part: for an index that is not negative
    [ensure_index_bounds] returns the negative bound, the rasterizers'
    clamp returns 0. *)
Theorem clamps_agree :
  (forall index max_index,
     0 <= max_index ->
     ensure_index_bounds index max_index = max_min_clamp index max_index) /\
  (forall doc page_index,
     1 <= Fitz.page_count doc ->
     clamped_page doc page_index =
       ensure_index_bounds page_index (Fitz.page_count doc - 1)) /\
  (forall i j max_index,
     0 <= max_index -> i <= j ->
     ensure_index_bounds i max_index <= ensure_index_bounds j max_index) /\
  (forall index max_index,
     max_index < 0 -> 0 <= index ->
     ensure_index_bounds index max_index = max_index /\
     max_min_clamp index max_index = 0).
Proof.
  assert (Hsame : forall index max_index, 0 <= max_index ->
            ensure_index_bounds index max_index = max_min_clamp index max_index).
  { intros index max_index Hmax. unfold max_min_clamp.
    destruct (ensure_index_bounds_cases index max_index)
      as [[Hlo E] | [[Hlo [Hhi E]] | [Hin E]]]; rewrite E; lia. }
  split; [exact Hsame |]. split; [| split].
  - intros doc page_index Hpages. rewrite Hsame by lia. reflexivity.
  - intros i j max_index Hmax Hij. rewrite !Hsame by exact Hmax.
    unfold max_min_clamp. lia.
  - intros index max_index Hneg Hpos. split.
    + destruct (ensure_index_bounds_cases index max_index)
        as [[Hlo E] | [[Hlo [Hhi E]] | [Hin E]]]; [lia | exact E | lia].
    + unfold max_min_clamp. lia.
Qed.

Lemma clamps_agree_witness :
  ensure_index_bounds 7 2 = max_min_clamp 7 2 /\
  clamped_page Sample.ten_pages 10000 = ensure_index_bounds 10000 9 /\
  ensure_index_bounds (-3) 2 <= ensure_index_bounds 1 2 /\
  ensure_index_bounds 0 (-1) = -1 /\
  max_min_clamp 0 (-1) = 0.
Proof.
  destruct clamps_agree as [Hsame [Hdoc [Hmono Hempty]]].
  split; [apply Hsame; lia |].
  split; [apply (Hdoc Sample.ten_pages 10000); vm_compute; discriminate |].
  split; [apply Hmono; lia |].
  apply (Hempty 0 (-1)); lia.
Defined.

(** ** The placeholder's label *)

(** The placeholder is a light grey image with one drawing call on it:
    the label, in DejaVuSans at 36 or in the default font when that one
    cannot be loaded, placed so that the space left of it and the space
    right of it differ by at most one pixel, and likewise above and
    below. *)
Theorem placeholder_label_centred (env : Env) (width height : Z)
        (img : PIL.Image) :
  build_placeholder_image env width height = Ok img ->
  PIL.base img = PIL.Solid (245, 245, 245) /\
  exists font x y,
    font = match truetype env "DejaVuSans.ttf" 36 with
           | Some f => f
           | None => load_default env
           end /\
    PIL.ops img = [PIL.Text (x, y) "Image Placeholder" (80, 80, 80) font] /\
    (let '(l, t, r, b) := PIL.font_textbbox font "Image Placeholder" in
     0 <= (width - (r - l) - x) - x <= 1 /\
     0 <= (height - (b - t) - y) - y <= 1).
Proof.
  unfold build_placeholder_image, PIL.new. intro Hbuild.
  destruct (PIL.check_size (width, height)); [| discriminate Hbuild].
  destruct (PIL.fits_int (width, height)); [| discriminate Hbuild].
  destruct (PIL.can_allocate (pillow env) (width, height));
    [| discriminate Hbuild].
  cbn [negb bind] in Hbuild.
  set (font := match truetype env "DejaVuSans.ttf" 36 with
               | Some f => f
               | None => load_default env
               end) in *.
  destruct (PIL.font_textbbox font "Image Placeholder")
    as [[[l t] r] b] eqn:Hbox.
  inversion Hbuild; subst img. split; [reflexivity |].
  exists font, ((width - (r - l)) / 2), ((height - (b - t)) / 2).
  split; [reflexivity |]. split; [reflexivity |].
  rewrite Hbox.
  pose proof (Z.div_mod (width - (r - l)) 2 ltac:(lia)) as Hx.
  pose proof (Z.mod_pos_bound (width - (r - l)) 2 ltac:(lia)) as Hxm.
  pose proof (Z.div_mod (height - (b - t)) 2 ltac:(lia)) as Hy.
  pose proof (Z.mod_pos_bound (height - (b - t)) 2 ltac:(lia)) as Hym.
  lia.
Qed.

Lemma placeholder_label_centred_witness :
  exists img,
    build_placeholder_image Sample.env 900 600 = Ok img /\
    PIL.base img = PIL.Solid (245, 245, 245) /\
    exists x y,
      PIL.ops img =
        [PIL.Text (x, y) "Image Placeholder" (80, 80, 80) Sample.font] /\
      0 <= (900 - 102 - x) - x <= 1 /\
      0 <= (600 - 9 - y) - y <= 1.
Proof.
  destruct (build_placeholder_image Sample.env 900 600) as [img | e] eqn:Hbuild;
    [| vm_compute in Hbuild; discriminate Hbuild].
  exists img. split; [reflexivity |].
  destruct (placeholder_label_centred Sample.env 900 600 img Hbuild)
    as [Hbase [font [x [y [Hfont [Hops Hmid]]]]]].
  split; [exact Hbase |].
  exists x, y. subst font. split; [exact Hops | exact Hmid].
Defined.

(** ** [main] without records *)

Lemma shown_shown (w : World) (a b : list ui_event) :
  shown (shown w a) b = shown w (a ++ b).
Proof. unfold shown. simpl. rewrite <- app_assoc. reflexivity. Qed.

Lemma emit_shown (ev : ui_event) (w : World) :
  emit ev w = (Ok tt, shown w [ev]).
Proof. reflexivity. Qed.

Lemma mbind_emit {B} (ev : ui_event) (k : unit -> M B) (w : World) :
  mbind (emit ev) k w = k tt (shown w [ev]).
Proof. reflexivity. Qed.

Lemma mbind_lift_ok {A B} (a : A) (k : A -> M B) (w : World) :
  mbind (lift (Ok a)) k w = k a w.
Proof. reflexivity. Qed.

Lemma mbind_lift_raise {A B} (e : exn) (k : A -> M B) (w : World) :
  mbind (lift (Raise e)) k w = (Raise e, w).
Proof. reflexivity. Qed.

(** What lines 96-111 do, case by case. *)
Lemma generate_data_run (env : Env) (inp : Inputs) (w : World) :
  generate_data env inp w =
  (Ok VNone,
   if String.eqb (json_mode inp) "Generate from PDF"
   then match pdf_upload inp with
        | None => w
        | Some _ =>
            if String.eqb (api_key inp) ""
            then shown w [api_key_required]
            else shown w [SidebarWarning (StrOfExn not_implemented)]
        end
   else w).
Proof.
  unfold generate_data.
  destruct (String.eqb (json_mode inp) "Generate from PDF");
    [| destruct (pdf_upload inp); reflexivity].
  destruct (pdf_upload inp) as [pdf |]; [| reflexivity].
  destruct (String.eqb (api_key inp) ""); reflexivity.
Qed.

(** In "Generate from PDF" mode [main] never gets to a record: with a PDF
    and an API key it reports that generation is not implemented, with a
    PDF and no key that a key is required, and in every case it ends on
    the prompt to upload a JSON file.  In "Upload JSON" mode without a
    file it shows that prompt alone.  Nothing else changes: the session,
    the caches and the count of rasterizer runs are as before. *)
Theorem main_without_records (env : Env) (inp : Inputs) (w : World) :
  (json_mode inp = "Generate from PDF"%string ->
   main env inp w =
     (Ok tt,
      shown w
        match pdf_upload inp with
        | None => [upload_prompt]
        | Some _ =>
            if String.eqb (api_key inp) ""
            then [api_key_required; upload_prompt]
            else [SidebarWarning (StrOfExn not_implemented); upload_prompt]
        end)) /\
  (json_mode inp = "Upload JSON"%string -> json_uploader inp = None ->
   main env inp w = (Ok tt, shown w [upload_prompt])).
Proof.
  split.
  - intro Hmode. unfold main. unfold mbind at 1.
    rewrite generate_data_run, Hmode. cbn [String.eqb Ascii.eqb Bool.eqb is_none].
    destruct (pdf_upload inp) as [pdf |].
    + destruct (String.eqb (api_key inp) "");
        unfold mbind, emit, ret; cbn; rewrite <- app_assoc; reflexivity.
    + reflexivity.
  - intros Hmode Hfile. unfold main. unfold mbind at 1.
    rewrite generate_data_run, Hmode, Hfile. reflexivity.
Qed.

Lemma main_without_records_witness :
  main Sample.env
    {| api_key := "secret"; json_mode := "Generate from PDF";
       pdf_upload := Some Sample.pdf_bytes; json_uploader := None;
       prev_clicked := false; next_clicked := true |} Sample.fresh =
    (Ok tt,
     shown Sample.fresh
       [SidebarWarning (StrOfExn not_implemented); upload_prompt]) /\
  main Sample.env
    {| api_key := ""; json_mode := "Upload JSON";
       pdf_upload := Some Sample.pdf_bytes; json_uploader := None;
       prev_clicked := false; next_clicked := false |} Sample.fresh =
    (Ok tt, shown Sample.fresh [upload_prompt]).
Proof.
  split.
  - apply (main_without_records Sample.env
             {| api_key := "secret"; json_mode := "Generate from PDF";
                pdf_upload := Some Sample.pdf_bytes; json_uploader := None;
                prev_clicked := false; next_clicked := true |} Sample.fresh).
    reflexivity.
  - apply (main_without_records Sample.env
             {| api_key := ""; json_mode := "Upload JSON";
                pdf_upload := Some Sample.pdf_bytes; json_uploader := None;
                prev_clicked := false; next_clicked := false |} Sample.fresh);
      reflexivity.
Defined.

(** ** [main] with an uploaded file *)

(** [main] in "Upload JSON" mode with a file: the hash is noted, the
    file is loaded through its cache, and the outcome decides. *)
Lemma main_upload_run (env : Env) (inp : Inputs) (raw : list Byte.byte)
      (w : World) :
  json_mode inp = "Upload JSON"%string -> json_uploader inp = Some raw ->
  main env inp w =
  (let '(r, w1) :=
     load_tracing_data_from_bytes env raw (after_upload env raw w) in
   match r with
   | Raise e => (Raise e, w1)
   | Ok (VList (item :: rest)) => browse env inp (item :: rest) w1
   | Ok _ => (Ok tt, shown w1 [bad_format])
   end).
Proof.
  intros Hmode Hfile. unfold main. unfold mbind at 1.
  rewrite generate_data_run, Hmode, Hfile.
  cbn [String.eqb Ascii.eqb Bool.eqb is_none].
  assert (Hnote : forall B (k : unit -> M B),
            mbind match json_hash (session w) with
                  | Some h' =>
                      if h' =? hash_bytes env raw then ret tt
                      else mbind (set_json_hash (hash_bytes env raw))
                             (fun _ => set_pos_index 0)
                  | None =>
                      mbind (set_json_hash (hash_bytes env raw))
                        (fun _ => set_pos_index 0)
                  end k w = k tt (after_upload env raw w)).
  { intros B k. unfold after_upload.
    destruct (json_hash (session w)) as [h' |];
      [destruct (h' =? hash_bytes env raw) |]; reflexivity. }
  unfold mbind at 1. rewrite mbind_get_session, Hnote.
  unfold mbind at 1.
  destruct (load_tracing_data_from_bytes env raw (after_upload env raw w))
    as [[v | e] w1]; [| reflexivity].
  destruct v as [| b | z | f | t | [| item rest] | d]; reflexivity.
Qed.

Lemma keeps_load_bytes (env : Env) (raw : list Byte.byte) :
  keeps_session (load_tracing_data_from_bytes env raw).
Proof.
  apply keeps_cache_data; [reflexivity | apply keeps_lift].
Qed.

(** An uploaded file that does not hold records stops [main]: when it
    cannot be parsed, the parser's exception leaves [main], uncaught, and
    nothing is shown; when it parses to anything but a non-empty list,
    the format error is shown and nothing else. *)
Theorem main_rejects_bad_data (env : Env) (inp : Inputs) (raw : list Byte.byte)
        (w : World) :
  json_mode inp = "Upload JSON"%string -> json_uploader inp = Some raw ->
  (forall e w1,
     load_tracing_data_from_bytes env raw (after_upload env raw w) =
       (Raise e, w1) ->
     main env inp w = (Raise e, after_upload env raw w) /\
     json_loads env raw = Raise e) /\
  (forall v w1,
     load_tracing_data_from_bytes env raw (after_upload env raw w) =
       (Ok v, w1) ->
     match v with VList (_ :: _) => False | _ => True end ->
     main env inp w = (Ok tt, shown w1 [bad_format])).
Proof.
  intros Hmode Hfile. split.
  - intros e w1 Hload. rewrite (main_upload_run env inp raw w Hmode Hfile), Hload.
    unfold load_tracing_data_from_bytes in Hload.
    apply cache_data_raise in Hload. destruct Hload as [_ Hbody].
    unfold lift in Hbody. inversion Hbody. split; reflexivity.
  - intros v w1 Hload Hbad.
    rewrite (main_upload_run env inp raw w Hmode Hfile), Hload.
    destruct v as [| b | z | f | t | [| item rest] | d];
      try reflexivity. contradiction.
Qed.

Lemma main_rejects_bad_data_witness :
  main Sample.env (Sample.click false true) Sample.fresh =
    (Raise ValueError, after_upload Sample.env Sample.json_bytes Sample.fresh) /\
  pos_index (session (after_upload Sample.env Sample.json_bytes Sample.fresh)) =
    Some 0.
Proof.
  split; [| reflexivity].
  destruct (main_rejects_bad_data Sample.env (Sample.click false true)
              Sample.json_bytes Sample.fresh eq_refl eq_refl) as [Hraise _].
  apply (Hraise ValueError
           (after_upload Sample.env Sample.json_bytes Sample.fresh)).
  reflexivity.
Defined.

(** ** The record that is shown *)

(** Lines 128-149, step by step: what remains of [browse] is run in the
    world whose session has moved. *)
Lemma browse_run (env : Env) (inp : Inputs) (data : list value) (w : World) :
  browse env inp data w =
  mbind (lift (list_index data
                 (next_index inp (pos_index (session w))
                    (Z.of_nat (List.length data)))))
    (fun current_item =>
       mbind (emit (Markdown (markdown_text current_item)))
         (fun _ => right_col env (pdf_upload inp) current_item))
    (with_session w (moved inp (session w) (Z.of_nat (List.length data)))).
Proof.
  unfold browse, moved, next_index. rewrite mbind_get_session.
  destruct (pos_index (session w)) as [stored |] eqn:Hstored.
  - rewrite mbind_ret, (mbind_read_pos_index _ _ _ Hstored).
    rewrite mbind_set_pos_index.
    destruct (prev_clicked inp), (next_clicked inp); cbv beta iota;
      repeat (first [rewrite mbind_set_pos_index | rewrite mbind_ret];
              cbv beta iota);
      (erewrite mbind_read_pos_index
         by (rewrite session_with_pos_index; reflexivity));
      reflexivity.
  - rewrite mbind_set_pos_index.
    erewrite mbind_read_pos_index
      by (rewrite session_with_pos_index; reflexivity).
    rewrite mbind_set_pos_index.
    destruct (prev_clicked inp), (next_clicked inp); cbv beta iota;
      repeat (first [rewrite mbind_set_pos_index | rewrite mbind_ret];
              cbv beta iota);
      (erewrite mbind_read_pos_index
         by (rewrite session_with_pos_index; reflexivity));
      reflexivity.
Qed.

Lemma next_index_in_range (inp : Inputs) (stored : option Z) (records : Z) :
  1 <= records -> 0 <= next_index inp stored records < records.
Proof.
  intro Hn. unfold next_index.
  set (i := match stored with Some i => i | None => 0 end).
  pose proof (ensure_index_bounds_cases i (records - 1)) as Hcur.
  set (c := ensure_index_bounds i (records - 1)) in *.
  pose proof (ensure_index_bounds_cases (c + 1) (records - 1)) as Hup.
  pose proof (ensure_index_bounds_cases (c - 1) (records - 1)) as Hdown.
  destruct (next_clicked inp); [lia |]. destruct (prev_clicked inp); lia.
Qed.

Lemma list_index_in_range (l : list value) (i : Z) :
  0 <= i < Z.of_nat (List.length l) ->
  exists v, nth_error l (Z.to_nat i) = Some v /\ list_index l i = Ok v.
Proof.
  intros [Hlo Hhi]. unfold list_index.
  replace (i <? 0) with false by (symmetry; apply Z.ltb_ge; exact Hlo).
  replace (0 <=? i) with true by (symmetry; apply Z.leb_le; exact Hlo).
  replace (i <? Z.of_nat (List.length l)) with true
    by (symmetry; apply Z.ltb_lt; exact Hhi).
  cbn [andb].
  destruct (nth_error l (Z.to_nat i)) as [v |] eqn:Hnth.
  - exists v. split; reflexivity.
  - exfalso. apply nth_error_None in Hnth. lia.
Qed.

(** [browse] once the record at the new index is known. *)
Lemma browse_at_record (env : Env) (inp : Inputs) (data : list value)
      (w : World) (current_item : value) :
  nth_error data
    (Z.to_nat (next_index inp (pos_index (session w))
                 (Z.of_nat (List.length data)))) = Some current_item ->
  browse env inp data w =
    right_col env (pdf_upload inp) current_item
      (shown (with_session w (moved inp (session w)
                                (Z.of_nat (List.length data))))
         [Markdown (markdown_text current_item)]).
Proof.
  intro Hnth.
  assert (Hn : 1 <= Z.of_nat (List.length data)).
  { destruct data; [| simpl List.length; lia].
    destruct (Z.to_nat _); discriminate Hnth. }
  pose proof (next_index_in_range inp (pos_index (session w)) _ Hn) as Hrange.
  destruct (list_index_in_range data _ Hrange) as [item [Hnth' Hidx]].
  rewrite Hnth in Hnth'. inversion Hnth'; subst item.
  rewrite browse_run, Hidx. reflexivity.
Qed.

Lemma session_after_record_panel (env : Env) (inp : Inputs)
      (data : list value) (w : World) :
  session (snd (browse env inp data w)) =
  moved inp (session w) (Z.of_nat (List.length data)).
Proof.
  rewrite browse_run.
  assert (Hkeep : keeps_session
            (mbind (lift (list_index data
                            (next_index inp (pos_index (session w))
                               (Z.of_nat (List.length data)))))
               (fun current_item =>
                  mbind (emit (Markdown (markdown_text current_item)))
                    (fun _ => right_col env (pdf_upload inp) current_item)))).
  { apply keeps_mbind; [apply keeps_lift |]. intro item.
    apply keeps_mbind; [apply keeps_emit |]. intros _. apply keeps_right_col. }
  rewrite Hkeep. reflexivity.
Qed.

(** On a collection that is not empty, [main] never indexes out of
    range: whatever index was stored and whichever buttons were pressed,
    the new index lies within the collection, the record at that index
    is the one whose text is shown, and the page panel is built for that
    same record, in the world whose session holds the new index. *)
Theorem browse_shows_record (env : Env) (inp : Inputs) (data : list value)
        (w : World) :
  data <> [] ->
  let records := Z.of_nat (List.length data) in
  let index := next_index inp (pos_index (session w)) records in
  0 <= index < records /\
  exists current_item,
    nth_error data (Z.to_nat index) = Some current_item /\
    browse env inp data w =
      right_col env (pdf_upload inp) current_item
        (shown (with_session w (moved inp (session w) records))
           [Markdown (markdown_text current_item)]).
Proof.
  intro Hdata. cbv zeta.
  assert (Hn : 1 <= Z.of_nat (List.length data)).
  { destruct data; [contradiction | simpl List.length; lia]. }
  pose proof (next_index_in_range inp (pos_index (session w)) _ Hn) as Hrange.
  split; [exact Hrange |].
  destruct (list_index_in_range data _ Hrange) as [item [Hnth _]].
  exists item. split; [exact Hnth |].
  apply browse_at_record, Hnth.
Qed.

Lemma browse_shows_record_witness :
  browse Sample.env (Sample.click false true) Sample.records Sample.fresh =
    right_col Sample.env (Some Sample.pdf_bytes)
      (VDict [("text", VStr "second"); ("page", VInt 4);
              ("bbox", VList [Sample.quarter; Sample.quarter;
                              Sample.three_quarters; Sample.three_quarters])]%string)
      (shown (with_session Sample.fresh
                {| json_hash := None; pdf_hash := None; pos_index := Some 1 |})
         [Markdown (TextOf (VStr "second"))]).
Proof.
  destruct (browse_shows_record Sample.env (Sample.click false true)
              Sample.records Sample.fresh ltac:(discriminate))
    as [_ [item [Hnth Hrun]]].
  vm_compute in Hnth. inversion Hnth; subst item. exact Hrun.
Defined.

(** The page number is worked out before the render try begins: when a
    record's page number cannot be converted, the exception leaves
    [main], uncaught, after the record's text has been shown and before
    anything is put in the page panel; no render is attempted. *)
Theorem bad_page_number_escapes (env : Env) (inp : Inputs) (data : list value)
        (w : World) (current_item : value) (e : exn) :
  let records := Z.of_nat (List.length data) in
  let index := next_index inp (pos_index (session w)) records in
  nth_error data (Z.to_nat index) = Some current_item ->
  resolve_page_no env current_item = Raise e ->
  browse env inp data w =
    (Raise e,
     shown (with_session w (moved inp (session w) records))
       [Markdown (markdown_text current_item)]).
Proof.
  cbv zeta. intros Hnth Hpage.
  rewrite (browse_at_record env inp data w current_item Hnth).
  unfold right_col. unfold mbind at 1. rewrite Hpage. reflexivity.
Qed.

Lemma bad_page_number_escapes_witness :
  browse Sample.env (Sample.click false false)
    [VDict [("text", VStr "cover"); ("page_no", VStr "iv")]%string]
    Sample.fresh =
    (Raise ValueError,
     shown (with_session Sample.fresh
              {| json_hash := None; pdf_hash := None; pos_index := Some 0 |})
       [Markdown (TextOf (VStr "cover"))]).
Proof.
  apply (bad_page_number_escapes Sample.env (Sample.click false false)
           [VDict [("text", VStr "cover"); ("page_no", VStr "iv")]%string]
           Sample.fresh
           (VDict [("text", VStr "cover"); ("page_no", VStr "iv")]%string)
           ValueError); reflexivity.
Defined.

(** A new file starts at the first record: when the uploaded file's hash
    is not the stored one (or none is stored), navigation starts from
    index 0 whatever index was stored, and the new hash is stored; when
    the hash is the stored one, navigation goes on from the stored
    index. *)
Theorem new_upload_resets_index (env : Env) (inp : Inputs)
        (raw : list Byte.byte) (w w1 : World) (item : value)
        (rest : list value) :
  json_mode inp = "Upload JSON"%string -> json_uploader inp = Some raw ->
  load_tracing_data_from_bytes env raw (after_upload env raw w) =
    (Ok (VList (item :: rest)), w1) ->
  let records := Z.of_nat (List.length (item :: rest)) in
  let after := session (snd (main env inp w)) in
  (json_hash (session w) = Some (hash_bytes env raw) ->
   after = moved inp (session w) records) /\
  (json_hash (session w) <> Some (hash_bytes env raw) ->
   json_hash after = Some (hash_bytes env raw) /\
   pos_index after = Some (next_index inp (Some 0) records)).
Proof.
  intros Hmode Hfile Hload. cbv zeta.
  rewrite (main_upload_run env inp raw w Hmode Hfile), Hload.
  rewrite session_after_record_panel.
  pose proof (keeps_load_bytes env raw (after_upload env raw w)) as Hkeep.
  rewrite Hload in Hkeep. cbn [snd] in Hkeep. rewrite Hkeep.
  unfold after_upload. split.
  - intro Hsame. rewrite Hsame, Z.eqb_refl. reflexivity.
  - intro Hnew.
    destruct (json_hash (session w)) as [h' |] eqn:Hjh.
    + destruct (Z.eqb_spec h' (hash_bytes env raw)) as [Heq | Hne].
      * congruence.
      * split; reflexivity.
    + split; reflexivity.
Qed.

Lemma new_upload_resets_index_witness :
  let first := main Sample.env_with_records (Sample.click false true)
                 Sample.fresh in
  let second := main Sample.env_with_records (Sample.click false true)
                  (snd first) in
  pos_index (session (snd first)) = Some 1 /\
  json_hash (session (snd first)) = Some 2 /\
  pos_index (session (snd second)) = Some 2.
Proof.
  cbv zeta.
  pose (first := main Sample.env_with_records (Sample.click false true)
                   Sample.fresh).
  destruct (new_upload_resets_index Sample.env_with_records
              (Sample.click false true) Sample.json_bytes Sample.fresh
              (snd (load_tracing_data_from_bytes Sample.env_with_records
                      Sample.json_bytes
                      (after_upload Sample.env_with_records Sample.json_bytes
                         Sample.fresh)))
              (VDict [("text", VStr "first"); ("page_no", VInt 0)]%string)
              (tl Sample.records) eq_refl eq_refl eq_refl)
    as [_ Hnew].
  destruct (Hnew ltac:(discriminate)) as [Hhash Hpos].
  destruct (new_upload_resets_index Sample.env_with_records
              (Sample.click false true) Sample.json_bytes (snd first)
              (snd (load_tracing_data_from_bytes Sample.env_with_records
                      Sample.json_bytes
                      (after_upload Sample.env_with_records Sample.json_bytes
                         (snd first))))
              (VDict [("text", VStr "first"); ("page_no", VInt 0)]%string)
              (tl Sample.records) eq_refl eq_refl eq_refl)
    as [Hsame _].
  split; [exact Hpos |]. split; [exact Hhash |].
  fold first. rewrite (Hsame eq_refl). reflexivity.
Defined.


(** ** The page panel *)

(** With a backend but neither an uploaded PDF nor the bundled one on
    disk, the page panel shows the warning that names the missing path
    and then the placeholder, which Pillow must be able to allocate; the
    rasterizer is not run and no cache table changes. *)
Theorem missing_bundled_pdf (env : Env) (lib : Fitz.Library)
        (current_item : value) (page_no : Z) (w : World) :
  fitz env = Some lib ->
  PIL.can_allocate (pillow env) (900, 600) = true ->
  resolve_page_no env current_item = Ok page_no ->
  path_exists env (PDF_PATH env) = false ->
  exists placeholder,
    build_placeholder_image env 900 600 = Ok placeholder /\
    right_col env None current_item w =
      (Ok tt, shown w [Warning (PdfNotFound (PDF_PATH env));
                       ShowImage placeholder]).
Proof.
  intros Hfitz Halloc Hpage Hmissing.
  destruct (build_placeholder_image_ok env 900 600)
    as [placeholder [Hbuild _]]; [lia | lia | exact Halloc |].
  exists placeholder. split; [exact Hbuild |].
  unfold right_col, mbind, lift. rewrite Hpage, Hfitz.
  unfold try_except. rewrite Hmissing. cbn [negb].
  unfold show_placeholder, mbind, lift, default_width, default_height.
  simpl. rewrite Hbuild. unfold emit, shown. simpl.
  rewrite <- app_assoc. reflexivity.
Qed.

Lemma missing_bundled_pdf_witness :
  exists placeholder,
    PIL.size placeholder = (900, 600) /\
    right_col
      {| unicode := Sample.arabic; pillow := Sample.strict_pillow;
         fitz := Some Sample.library; truetype := fun _ _ => None;
         load_default := Sample.font; app_root := "/opt/app";
         path_exists := fun _ => false; json_loads := fun _ => Raise ValueError;
         json_load_path := fun _ => Raise ValueError;
         hash_bytes := fun _ => 0; mkdtemp := fun p => p |}
      None (VDict [("page", VInt 2)]%string) Sample.fresh =
      (Ok tt,
       shown Sample.fresh
         [Warning (PdfNotFound
            "/opt/app/documents/tracing_positional_bias_in_finance_decision_making.pdf");
          ShowImage placeholder]).
Proof.
  destruct (missing_bundled_pdf
              {| unicode := Sample.arabic; pillow := Sample.strict_pillow;
         fitz := Some Sample.library; truetype := fun _ _ => None;
                 load_default := Sample.font; app_root := "/opt/app";
                 path_exists := fun _ => false;
                 json_loads := fun _ => Raise ValueError;
                 json_load_path := fun _ => Raise ValueError;
                 hash_bytes := fun _ => 0; mkdtemp := fun p => p |}
              Sample.library (VDict [("page", VInt 2)]%string) 2 Sample.fresh
              eq_refl eq_refl eq_refl eq_refl) as [placeholder [Hbuild Hrun]].
  exists placeholder. split; [| exact Hrun].
  vm_compute in Hbuild. inversion Hbuild. reflexivity.
Defined.

(** ** The record loaders *)

(** A file is parsed once: bytes that have been loaded return the stored
    data on every later call, from any environment, without the parser;
    bytes that the parser rejects raise the parser's exception and leave
    the world as it was, so nothing is stored for them. *)
Theorem loaded_file_is_cached (env env' : Env) (raw : list Byte.byte)
        (path : string) (w : World) :
  (forall v w1,
     load_tracing_data_from_bytes env raw w = (Ok v, w1) ->
     load_tracing_data_from_bytes env' raw w1 = (Ok v, w1)) /\
  (forall e w1,
     load_tracing_data_from_bytes env raw w = (Raise e, w1) ->
     w1 = w /\ json_loads env raw = Raise e) /\
  (forall v w1,
     load_tracing_data_from_path env path w = (Ok v, w1) ->
     load_tracing_data_from_path env' path w1 = (Ok v, w1)) /\
  (forall e w1,
     load_tracing_data_from_path env path w = (Raise e, w1) ->
     w1 = w /\ json_load_path env path = Raise e).
Proof.
  split; [| split; [| split]].
  - intros v w1 Hfirst. unfold load_tracing_data_from_bytes in *.
    apply cache_data_lookup.
    apply (cache_data_stores load_bytes_slot bytes_eqb_refl
             (fun t w0 => eq_refl) _ _ _ _ _ Hfirst).
  - intros e w1 Hfirst. unfold load_tracing_data_from_bytes in Hfirst.
    apply cache_data_raise in Hfirst. destruct Hfirst as [_ Hbody].
    unfold lift in Hbody. inversion Hbody. split; reflexivity.
  - intros v w1 Hfirst. unfold load_tracing_data_from_path in *.
    apply cache_data_lookup.
    apply (cache_data_stores load_path_slot String.eqb_refl
             (fun t w0 => eq_refl) _ _ _ _ _ Hfirst).
  - intros e w1 Hfirst. unfold load_tracing_data_from_path in Hfirst.
    apply cache_data_raise in Hfirst. destruct Hfirst as [_ Hbody].
    unfold lift in Hbody. inversion Hbody. split; reflexivity.
Qed.

Lemma loaded_file_is_cached_witness :
  exists w1,
    load_tracing_data_from_bytes Sample.env_with_records Sample.json_bytes
      Sample.fresh = (Ok (VList Sample.records), w1) /\
    json_loads Sample.env Sample.json_bytes = Raise ValueError /\
    load_tracing_data_from_bytes Sample.env Sample.json_bytes w1 =
      (Ok (VList Sample.records), w1).
Proof.
  pose (first := load_tracing_data_from_bytes Sample.env_with_records
                   Sample.json_bytes Sample.fresh).
  assert (Hfirst : first = (Ok (VList Sample.records), snd first))
    by reflexivity.
  exists (snd first). split; [exact Hfirst |]. split; [reflexivity |].
  apply (loaded_file_is_cached Sample.env_with_records Sample.env
           Sample.json_bytes EmptyString Sample.fresh).
  exact Hfirst.
Defined.

(** ** What a run of [main] leaves alone *)

Ltac same_footprint :=
  repeat split; simpl; try lia; exists []; rewrite app_nil_r; reflexivity.

Lemma footprint_refl (w : World) : footprint 0 w w.
Proof.
  repeat split; try lia. exists []. rewrite app_nil_r. reflexivity.
Qed.

Lemma footprint_trans (a b : nat) (w1 w2 w3 : World) :
  footprint a w1 w2 -> footprint b w2 w3 -> footprint (a + b) w1 w3.
Proof.
  intros [Hp1 [Hc1 [Hr1 [e1 Hs1]]]] [Hp2 [Hc2 [Hr2 [e2 Hs2]]]].
  repeat split; try congruence; try lia.
  exists (e1 ++ e2). rewrite Hs2, Hs1, app_assoc. reflexivity.
Qed.

Lemma footprint_weaken (a b : nat) (w w' : World) :
  (a <= b)%nat -> footprint a w w' -> footprint b w w'.
Proof.
  intros Hab [Hp [Hc [Hr Hs]]]. repeat split; try assumption; lia.
Qed.

Lemma within_weaken {A} (a b : nat) (m : M A) :
  (a <= b)%nat -> within a m -> within b m.
Proof. intros Hab Hm w. apply (footprint_weaken a b); [exact Hab | apply Hm]. Qed.

Lemma within_ret {A} (a : A) : within 0 (ret a).
Proof. intro w. apply footprint_refl. Qed.

Lemma within_raise {A} (e : exn) : within 0 (@raise A e).
Proof. intro w. apply footprint_refl. Qed.

Lemma within_lift {A} (r : result A) : within 0 (lift r).
Proof. intro w. apply footprint_refl. Qed.

Lemma within_emit (ev : ui_event) : within 0 (emit ev).
Proof.
  intro w. repeat split; simpl; try lia. exists [ev]. reflexivity.
Qed.

Lemma within_mbind {A B} (a b : nat) (m : M A) (k : A -> M B) :
  within a m -> (forall x, within b (k x)) -> within (a + b) (mbind m k).
Proof.
  intros Hm Hk w. unfold mbind. specialize (Hm w).
  destruct (m w) as [[x | e] w1]; cbn [snd] in *.
  - apply (footprint_trans a b w w1); [exact Hm | apply Hk].
  - apply (footprint_weaken a); [lia | exact Hm].
Qed.

Lemma within_try_except {A} (a b : nat) (body : M A) (handles : exn -> bool)
      (handler : exn -> M A) :
  within a body -> (forall e, within b (handler e)) ->
  within (a + b) (try_except body handles handler).
Proof.
  intros Hbody Hhandler w. unfold try_except. specialize (Hbody w).
  destruct (body w) as [[x | e] w1]; cbn [snd] in *.
  - apply (footprint_weaken a); [lia | exact Hbody].
  - destruct (handles e); cbn [snd].
    + apply (footprint_trans a b w w1); [exact Hbody | apply Hhandler].
    + apply (footprint_weaken a); [lia | exact Hbody].
Qed.

Lemma within_cache_data {K V} (n : nat) (sl : slot K V) (body : K -> M V)
      (k : K) :
  (forall t w, footprint 0 w (set_table sl t w)) ->
  within n (body k) -> within n (cache_data sl body k).
Proof.
  intros Hset Hbody w. unfold cache_data.
  destruct (lookup _ _ _); cbn [snd].
  - apply (footprint_weaken 0); [lia | apply footprint_refl].
  - specialize (Hbody w). destruct (body k w) as [[v | e] w1]; cbn [snd] in *.
    + replace n with (n + 0)%nat by lia.
      apply (footprint_trans n 0 w w1); [exact Hbody | apply Hset].
    + exact Hbody.
Qed.

Lemma within_set_pos_index (i : Z) : within 0 (set_pos_index i).
Proof.
  intro w. same_footprint.
Qed.

Lemma within_set_json_hash (h : Z) : within 0 (set_json_hash h).
Proof.
  intro w. same_footprint.
Qed.

Lemma within_read_pos_index : within 0 read_pos_index.
Proof.
  intro w. unfold read_pos_index, mbind, get_session.
  destruct (pos_index (session w)); apply footprint_refl.
Qed.

Lemma within_render_bytes (env : Env) (raw : list Byte.byte) (i : Z)
      (z : float) :
  within 1 (render_pdf_page_from_bytes env raw i z).
Proof.
  apply within_cache_data; [intros t w; same_footprint |].
  intro w. rewrite rasterize_bytes_run. cbn [snd].
  same_footprint.
Qed.

Lemma within_render_path (env : Env) (path : string) (i : Z) (z : float) :
  within 1 (render_pdf_page_from_path env path i z).
Proof.
  apply within_cache_data; [intros t w; same_footprint |].
  intro w. rewrite rasterize_path_run. cbn [snd].
  same_footprint.
Qed.

Lemma within_load_bytes (env : Env) (raw : list Byte.byte) :
  within 0 (load_tracing_data_from_bytes env raw).
Proof.
  apply within_cache_data; [intros t w; same_footprint |].
  apply within_lift.
Qed.

Lemma within_show_placeholder (env : Env) : within 0 (show_placeholder env).
Proof.
  apply (within_mbind 0 0); [apply within_lift | intro; apply within_emit].
Qed.

Lemma within_show_page (env : Env) (item : value) (img : PIL.Image) :
  within 0 (show_page env item img).
Proof.
  apply (within_mbind 0 0); [apply within_lift | intro; apply within_emit].
Qed.

Lemma within_right_col (env : Env) (pdf_upload : option (list Byte.byte))
      (item : value) :
  within 1 (right_col env pdf_upload item).
Proof.
  unfold right_col.
  apply (within_mbind 0 1); [apply within_lift |]. intro page_no.
  destruct (fitz env) as [lib |].
  - apply (within_try_except 1 0).
    + destruct pdf_upload as [raw |].
      * apply (within_mbind 1 0); [apply within_render_bytes |].
        intro img. apply within_show_page.
      * destruct (negb _).
        -- apply (within_weaken 0); [lia |].
           apply (within_mbind 0 0); [apply within_emit |].
           intro. apply within_show_placeholder.
        -- apply (within_mbind 1 0); [apply within_render_path |].
           intro img. apply within_show_page.
    + intro e. apply (within_mbind 0 0); [apply within_emit |].
      intro. apply within_show_placeholder.
  - apply (within_weaken 0); [lia |].
    apply (within_mbind 0 0); [apply within_emit |].
    intro. apply within_show_placeholder.
Qed.

Lemma within_browse (env : Env) (inp : Inputs) (data : list value) :
  within 1 (browse env inp data).
Proof.
  unfold browse.
  apply (within_mbind 0 1); [intro w; apply footprint_refl |]. intro s.
  apply (within_mbind 0 1).
  { destruct (pos_index s); [apply within_ret | apply within_set_pos_index]. }
  intros _.
  apply (within_mbind 0 1); [apply within_read_pos_index |]. intro i.
  apply (within_mbind 0 1); [apply within_set_pos_index |]. intros _.
  apply (within_mbind 0 1).
  { destruct (prev_clicked inp); [apply within_set_pos_index | apply within_ret]. }
  intros _.
  apply (within_mbind 0 1).
  { destruct (next_clicked inp); [apply within_set_pos_index | apply within_ret]. }
  intros _.
  apply (within_mbind 0 1); [apply within_read_pos_index |]. intro j.
  apply (within_mbind 0 1); [apply within_lift |]. intro item.
  apply (within_mbind 0 1); [apply within_emit |]. intros _.
  apply within_right_col.
Qed.

Lemma within_generate_data (env : Env) (inp : Inputs) :
  within 0 (generate_data env inp).
Proof.
  intro w. rewrite generate_data_run. cbn [snd].
  assert (Hshown : forall evs, footprint 0 w (shown w evs)).
  { intro evs. repeat split; simpl; try lia. exists evs. reflexivity. }
  destruct (String.eqb _ _); [| apply footprint_refl].
  destruct (pdf_upload inp); [| apply footprint_refl].
  destruct (String.eqb _ _); apply Hshown.
Qed.

(** A run of [main] has a small footprint.  It never writes [pdf_hash],
    the key it sets up at the start.  It never reads records from a
    path: the only call of [load_tracing_data_from_path] comes after
    [generate_json_from_pdf], which always raises, so that loader's
    table is never changed.  It runs a rasterizer at most once.  And it
    only adds to the page: what was shown stays. *)
Theorem main_footprint (env : Env) (inp : Inputs) (w : World) :
  let w' := snd (main env inp w) in
  pdf_hash (session w') = pdf_hash (session w) /\
  load_path_cache w' = load_path_cache w /\
  (raster_calls w <= raster_calls w' <= raster_calls w + 1)%nat /\
  exists evs, screen w' = screen w ++ evs.
Proof.
  cbv zeta. change (footprint 1 w (snd (main env inp w))). revert w.
  change (within 1 (main env inp)). unfold main.
  apply (within_mbind 0 1); [apply within_generate_data |]. intro data.
  apply (within_mbind 0 1).
  - destruct (is_none data); [| apply within_ret].
    destruct (if String.eqb _ _ then _ else _) as [raw |].
    + apply (within_mbind 0 0); [intro w; apply footprint_refl |]. intro s.
      apply (within_mbind 0 0).
      { assert (Hreset : within 0 (mbind (set_json_hash (hash_bytes env raw))
                                     (fun _ => set_pos_index 0))).
        { apply (within_mbind 0 0); [apply within_set_json_hash |].
          intro. apply within_set_pos_index. }
        destruct (json_hash s) as [h' |]; [| exact Hreset].
        destruct (Z.eqb h' _); [apply within_ret | exact Hreset]. }
      intros _.
      apply (within_mbind 0 0); [apply within_load_bytes |].
      intro v. apply within_ret.
    + apply (within_mbind 0 0); [apply within_emit |]. intro. apply within_ret.
  - intros [[| b | z | f | t | [| item rest] | d] |];
      try (apply (within_weaken 0); [lia |]; first [apply within_emit | apply within_ret]).
    apply within_browse.
Qed.
